(** * Link Manager: the link collection logic of [link_manager.py]

    A shallow embedding of the parts of [LinkOpenerApp] that import,
    filter, persist and restore the two link lists, followed by the
    properties of that code.

    Conventions of the model.
    - A Python [str] is a [string]; its characters stand for the code
      points 0..255, on which [str.lower], [str.strip] and the ordering of
      strings are the ones defined below.
    - Python values that travel through [config.json] are [pyval]s.
    - The methods run in a small state-and-exception monad over [world]:
      the application object, the message boxes shown so far and the
      configuration file. *)

From Stdlib Require Import Ascii String ZArith Sorted Permutation.
From stdpp Require Import base option list strings gmap sorting.

(** ** [str] methods used by the program *)

Module Py.

Definition LF : ascii := "010"%char.
Definition CR : ascii := "013"%char.

(** [str.isspace] on one character (code points below 256). *)
Definition isspace (c : ascii) : bool :=
  let n := nat_of_ascii c in
  ((9 <=? n) && (n <=? 13)) || ((28 <=? n) && (n <=? 32))
  || (n =? 133) || (n =? 160).

(** [str.lower] on one character: A-Z, and the Latin-1 capitals
    U+00C0..U+00DE except the multiplication sign U+00D7. *)
Definition lower_char (c : ascii) : ascii :=
  let n := nat_of_ascii c in
  if ((65 <=? n) && (n <=? 90))
     || ((192 <=? n) && (n <=? 222) && negb (n =? 215))
  then ascii_of_nat (n + 32) else c.

Fixpoint lower (s : string) : string :=
  match s with
  | EmptyString => EmptyString
  | String c t => String (lower_char c) (lower t)
  end.

Fixpoint lstrip (s : string) : string :=
  match s with
  | EmptyString => EmptyString
  | String c t => if isspace c then lstrip t else s
  end.

Fixpoint rstrip (s : string) : string :=
  match s with
  | EmptyString => EmptyString
  | String c t =>
      match rstrip t with
      | EmptyString => if isspace c then EmptyString else String c EmptyString
      | t' => String c t'
      end
  end.

(** [s.strip()] *)
Definition strip (s : string) : string := rstrip (lstrip s).

(** [s.split(sep)] for a separator of one character. *)
Fixpoint split (sep : ascii) (s : string) : list string :=
  match s with
  | EmptyString => [EmptyString]
  | String c t =>
      if Ascii.eqb c sep then EmptyString :: split sep t
      else match split sep t with
           | h :: r => String c h :: r
           | [] => [String c EmptyString]
           end
  end.

(** [s.startswith(p)] *)
Definition startswith (p s : string) : bool := String.prefix p s.

(** [s.endswith(p)] *)
Definition endswith (p s : string) : bool :=
  String.prefix (String.rev p) (String.rev s).

(** [needle in hay] on strings. *)
Fixpoint contains (needle hay : string) : bool :=
  String.prefix needle hay ||
  match hay with
  | EmptyString => false
  | String _ t => contains needle t
  end.

(** Iterating over a file opened in text mode: the lines of the text,
    each with its terminator, where ["\n"], ["\r"] and ["\r\n"] all end a
    line and are delivered as ["\n"] (universal newlines). *)
Fixpoint readlines (s : string) : list string :=
  match s with
  | EmptyString => []
  | String c t =>
      if Ascii.eqb c LF then String LF EmptyString :: readlines t
      else if Ascii.eqb c CR then
        String LF EmptyString ::
          match t with
          | String c' t' => if Ascii.eqb c' LF then readlines t' else readlines t
          | EmptyString => []
          end
      else match readlines t with
           | [] => [String c EmptyString]
           | l :: r => String c l :: r
           end
  end.

(** [sorted(set(l))] on strings: the distinct elements in ascending
    order of [str] comparison (lexicographic on code points). *)
Definition set (l : list string) : gset string := list_to_set l.
Definition sorted (s : gset string) : list string :=
  merge_sort String.le (elements s).

End Py.

(** ** Python values, exceptions and the outside world *)

#[local] Set Warnings "-register-all".

(** The values [json.load] can return and [json.dump] can write. The
    entries of a [dict] are kept in insertion order; a [dict] has each key
    once, and a lookup takes the first entry with the key. *)
Inductive pyval :=
| PyNone
| PyBool (b : bool)
| PyInt (n : Z)
| PyFloat (repr : string)
| PyStr (s : string)
| PyList (items : list pyval)
| PyDict (entries : list (string * pyval)).   (* in insertion order *)

Inductive exn :=
| OSError (msg : string)
| UnicodeDecodeError (msg : string)
| JSONDecodeError (msg : string)
| IndexError (msg : string)
| AttributeError (msg : string)
| TypeError (msg : string).

(** [str(e)] *)
Definition exn_str (e : exn) : string :=
  match e with
  | OSError m | UnicodeDecodeError m | JSONDecodeError m
  | IndexError m | AttributeError m | TypeError m => m
  end.

Definition type_name (v : pyval) : string :=
  match v with
  | PyNone => "NoneType" | PyBool _ => "bool" | PyInt _ => "int"
  | PyFloat _ => "float" | PyStr _ => "str" | PyList _ => "list"
  | PyDict _ => "dict"
  end.

(** What reading a file in text mode gives: the text whose lines the
    iteration delivers, and then either the end of the file or a failure
    ([open] refusing the file is a failure after the empty text). *)
Record file := mkFile { delivered : string; failure : option exn }.

(** One name returned by [os.listdir], with what [os.path.isfile] answers
    for it and what [open] gives. *)
Record dirent := mkDirent { d_name : string; d_isfile : bool; d_file : file }.

(** [os.listdir] of a folder: its entries, or the exception it raises. *)
Definition filesystem := string → exn + list dirent.

(** [config.json] when it exists: a JSON document, or bytes that
    [json.load] rejects with the given exception. *)
Inductive config_file :=
| Json (doc : pyval)
| NotJson (e : exn).

(** One [QVBoxLayout] panel: the items of its [QListWidget] and the text
    of its [QLabel]. *)
Record panel := mkPanel { link_list : list string; label : string }.

Record LinkOpenerApp := mkApp {
  links1 : pyval;
  links2 : pyval;
  folder1 : pyval;
  folder2 : pyval;
  layout1 : panel;
  layout2 : panel
}.

Record world := mkWorld {
  self : LinkOpenerApp;
  boxes : list (string * string);   (* QMessageBox.critical: title, text *)
  disk : option config_file         (* CONFIG_FILE, if it exists *)
}.

(** The panel an event comes from. *)
Inductive slot := Slot1 | Slot2.

(** ** The monad of methods: state and exceptions *)

Inductive outcome (A : Type) :=
| Ok (a : A)
| Raise (e : exn).
Arguments Ok {A} a.
Arguments Raise {A} e.

Definition M (A : Type) : Type := world → outcome A * world.

Global Instance M_ret : MRet M := λ A a w, (Ok a, w).
Global Instance M_bind : MBind M := λ A B k m w,
  match m w with
  | (Ok a, w') => k a w'
  | (Raise e, w') => (Raise e, w')
  end.

Definition raise {A} (e : exn) : M A := λ w, (Raise e, w).
Definition lift {A} (o : outcome A) : M A := λ w, (o, w).
Definition get_self : M LinkOpenerApp := λ w, (Ok (self w), w).
Definition set_self (f : LinkOpenerApp → LinkOpenerApp) : M unit :=
  λ w, (Ok tt, mkWorld (f (self w)) (boxes w) (disk w)).

(** [try: body except Exception as e: handler e] *)
Definition try_except {A} (body : M A) (handler : exn → M A) : M A := λ w,
  match body w with
  | (Ok a, w') => (Ok a, w')
  | (Raise e, w') => handler e w'
  end.

(** [for x in l: acc = body acc x], with the loop-carried local [acc]. *)
Fixpoint for_fold {A B} (body : B → A → M B) (acc : B) (l : list A) : M B :=
  match l with
  | [] => mret acc
  | x :: l' => acc' ← body acc x; for_fold body acc' l'
  end.

(** ** Field assignments *)

Definition with_links1 (v : pyval) (a : LinkOpenerApp) : LinkOpenerApp :=
  mkApp v (links2 a) (folder1 a) (folder2 a) (layout1 a) (layout2 a).
Definition with_links2 (v : pyval) (a : LinkOpenerApp) : LinkOpenerApp :=
  mkApp (links1 a) v (folder1 a) (folder2 a) (layout1 a) (layout2 a).
Definition with_folder1 (v : pyval) (a : LinkOpenerApp) : LinkOpenerApp :=
  mkApp (links1 a) (links2 a) v (folder2 a) (layout1 a) (layout2 a).
Definition with_folder2 (v : pyval) (a : LinkOpenerApp) : LinkOpenerApp :=
  mkApp (links1 a) (links2 a) (folder1 a) v (layout1 a) (layout2 a).
Definition with_layout1 (p : panel) (a : LinkOpenerApp) : LinkOpenerApp :=
  mkApp (links1 a) (links2 a) (folder1 a) (folder2 a) p (layout2 a).
Definition with_layout2 (p : panel) (a : LinkOpenerApp) : LinkOpenerApp :=
  mkApp (links1 a) (links2 a) (folder1 a) (folder2 a) (layout1 a) p.

Definition layout_of (l : slot) (a : LinkOpenerApp) : panel :=
  match l with Slot1 => layout1 a | Slot2 => layout2 a end.
Definition with_layout (l : slot) (p : panel) : LinkOpenerApp → LinkOpenerApp :=
  match l with Slot1 => with_layout1 p | Slot2 => with_layout2 p end.

(** [self.links1 if layout == self.layout1 else self.links2] *)
Definition links_of (l : slot) (a : LinkOpenerApp) : pyval :=
  match l with Slot1 => links1 a | Slot2 => links2 a end.
Definition folder_of (l : slot) (a : LinkOpenerApp) : pyval :=
  match l with Slot1 => folder1 a | Slot2 => folder2 a end.

(** ** Qt and [os] calls *)

(** [QMessageBox.critical(self, title, text)] *)
Definition critical (title text : string) : M unit :=
  λ w, (Ok tt, mkWorld (self w) (boxes w ++ [(title, text)]) (disk w)).

(** [link_list.clear()] *)
Definition clear (l : slot) : M unit :=
  set_self (λ a, with_layout l (mkPanel [] (label (layout_of l a))) a).

(** [link_list.addItems(items)]: the widget takes [str] items only. *)
Fixpoint str_items (items : list pyval) : exn + list string :=
  match items with
  | [] => inr []
  | PyStr s :: rest =>
      match str_items rest with
      | inr l => inr (s :: l)
      | inl e => inl e
      end
  | v :: _ => inl (TypeError ("index 0 has type '" +:+ type_name v
                               +:+ "' but 'str' is expected"))
  end.

Definition addItems (l : slot) (items : list pyval) : M unit :=
  match str_items items with
  | inr strs =>
      set_self (λ a, with_layout l
        (mkPanel (link_list (layout_of l a) ++ strs) (label (layout_of l a))) a)
  | inl e => raise e
  end.

(** [link_list.addItem(v)] *)
Definition addItem (l : slot) (v : pyval) : M unit := addItems l [v].

(** [label.setText(text)] *)
Definition setText (l : slot) (text : string) : M unit :=
  set_self (λ a, with_layout l (mkPanel (link_list (layout_of l a)) text) a).

(** [os.path.join(folder, file)] and [os.path.basename(path)], POSIX. *)
Definition path_join (folder file : string) : string :=
  if Py.endswith "/" folder || String.eqb folder "" then folder +:+ file
  else folder +:+ "/" +:+ file.
Definition basename (path : string) : string :=
  List.last (Py.split "/"%char path) "".

(** Iterating over a value in a [for] loop or comprehension. *)
Definition py_iter (v : pyval) : M (list pyval) :=
  match v with
  | PyList items => mret items
  | PyStr s => mret ((λ c, PyStr (String c "")) <$> list_ascii_of_string s)
  | PyDict entries => mret ((λ kv, PyStr kv.1) <$> entries)
  | _ => raise (TypeError ("'" +:+ type_name v +:+ "' object is not iterable"))
  end.

(** [v.lower()] *)
Definition py_lower (v : pyval) : M string :=
  match v with
  | PyStr s => mret (Py.lower s)
  | _ => raise (AttributeError
           ("'" +:+ type_name v +:+ "' object has no attribute 'lower'"))
  end.

(** [config.get(key, default)] *)
Definition py_get (config : pyval) (key : string) (dflt : pyval) : M pyval :=
  match config with
  | PyDict entries =>
      mret (default dflt (snd <$> List.find (λ kv, String.eqb kv.1 key) entries))
  | _ => raise (AttributeError
           ("'" +:+ type_name config +:+ "' object has no attribute 'get'"))
  end.

(** [os.listdir(folder)] *)
Definition listdir (fs : filesystem) (folder : string) : M (list dirent) :=
  match fs folder with
  | inr entries => mret entries
  | inl e => raise e
  end.

(** [l[i]] on a list of strings. *)
Definition index (l : list string) (i : nat) : outcome string :=
  match l !! i with
  | Some x => Ok x
  | None => Raise (IndexError "list index out of range")
  end.

(** Truth value of a [str]. *)
Definition truthy (s : string) : bool := negb (String.eqb s "").

(** ** The methods of [LinkOpenerApp] *)

(** The body of the [try] in [extract_url_from_shortcut]: the
    [for line in file] loop over the lines the file delivers and the
    failure, if any, that follows them, then [return None]. It touches no
    state, so it is a function to an [outcome]. *)
Fixpoint scan_lines (lines : list string) (fail : option exn)
  : outcome (option string) :=
  match lines with
  | [] =>
      match fail with
      | Some e => Raise e
      | None => Ok None
      end
  | line :: rest =>
      if Py.startswith "URL=" line then
        match index (Py.split "="%char (Py.strip line)) 1 with
        | Ok url => Ok (Some url)
        | Raise e => Raise e
        end
      else scan_lines rest fail
  end.

Definition extract_url_from_shortcut (file_path : string) (f : file)
  : M (option string) :=
  try_except
    (lift (scan_lines (Py.readlines (delivered f)) (failure f)))
    (λ e, critical "Error"
            ("Could not read file:" +:+ String Py.LF file_path
             +:+ String Py.LF (String Py.LF ("Error: " +:+ exn_str e)));;
          mret None).

Definition update_link_list (layout : slot) : M unit :=
  clear layout;;
  a ← get_self;
  links ← py_iter (links_of layout a);
  for_fold (λ _ link, addItem layout link) tt links.

(** The body of the [for file in os.listdir(folder)] loop, with the
    list [links] it appends to. *)
Definition import_file (folder : string) (links : list string) (file : dirent)
  : M (list string) :=
  let file_path := path_join folder (d_name file) in
  if d_isfile file && Py.endswith ".url" (Py.lower (d_name file)) then
    link ← extract_url_from_shortcut file_path (d_file file);
    match link with
    | Some url => if truthy url then mret (links ++ [url]) else mret links
    | None => mret links
    end
  else mret links.

(** [folder] is what the folder picker returned: the empty string when
    the user cancelled. *)
Definition import_links (fs : filesystem) (layout : slot) (folder : string)
  : M unit :=
  if truthy folder then
    entries ← listdir fs folder;
    links ← for_fold (import_file folder) [] entries;
    let links := Py.sorted (Py.set links) in
    match layout with
    | Slot1 =>
        set_self (with_links1 (PyList (PyStr <$> links)));;
        set_self (with_folder1 (PyStr folder))
    | Slot2 =>
        set_self (with_links2 (PyList (PyStr <$> links)));;
        set_self (with_folder2 (PyStr folder))
    end;;
    update_link_list layout;;
    setText layout ("Folder: " +:+ basename folder)
  else mret tt.

(** One step of the comprehension
    [[link for link in links if search_text in link.lower()]]. *)
Definition keep_match (search_text : string) (acc : list pyval) (link : pyval)
  : M (list pyval) :=
  low ← py_lower link;
  mret (if Py.contains search_text low then acc ++ [link] else acc).

Definition filter_links (link_list : slot) (search_text : string) : M unit :=
  let search_text := Py.lower search_text in
  a ← get_self;
  let links := links_of link_list a in
  clear link_list;;
  items ← py_iter links;
  filtered_links ← for_fold (keep_match search_text) [] items;
  addItems link_list filtered_links.

(** [os.path.exists(CONFIG_FILE)] *)
Definition config_exists : M bool :=
  λ w, (Ok (bool_decide (is_Some (disk w))), w).

(** [with open(CONFIG_FILE, 'r') as file: json.load(file)] *)
Definition json_load : M pyval := λ w,
  match disk w with
  | Some (Json doc) => (Ok doc, w)
  | Some (NotJson e) => (Raise e, w)
  | None => (Raise (OSError "No such file or directory: 'config.json'"), w)
  end.

(** [with open(CONFIG_FILE, 'w') as file: json.dump(config, file)] *)
Definition json_dump (config : pyval) : M unit :=
  λ w, (Ok tt, mkWorld (self w) (boxes w) (Some (Json config))).

Definition load_config : M unit :=
  found ← config_exists;
  if (found : bool) then
    config ← json_load;
    v ← py_get config "links1" (PyList []); set_self (with_links1 v);;
    v ← py_get config "links2" (PyList []); set_self (with_links2 v);;
    v ← py_get config "folder1" (PyStr ""); set_self (with_folder1 v);;
    v ← py_get config "folder2" (PyStr ""); set_self (with_folder2 v)
  else mret tt.

Definition save_config : M unit :=
  a ← get_self;
  let config := PyDict [("links1", links1 a); ("links2", links2 a);
                        ("folder1", folder1 a); ("folder2", folder2 a)] in
  json_dump config.

(** The panels as [initUI] builds them, and the fields as [__init__]
    sets them before it loads the configuration. *)
Definition initUI (a : LinkOpenerApp) : LinkOpenerApp :=
  with_layout2 (mkPanel [] "Linklist 2")
    (with_layout1 (mkPanel [] "Linklist 1") a).

Definition __init__ : M unit :=
  set_self initUI;;
  set_self (with_links1 (PyList []));;
  set_self (with_links2 (PyList []));;
  set_self (with_folder1 (PyStr ""));;
  set_self (with_folder2 (PyStr ""));;
  load_config.

Definition closeEvent : M unit := save_config.

(** ** Notions used in the statements *)

(** The test of the import loop: a regular file whose name ends in
    [.url], whatever the case of the letters. *)
Definition is_shortcut (d : dirent) : bool :=
  d_isfile d && Py.endswith ".url" (Py.lower (d_name d)).

(** What reading the file of an entry gives inside the [try]. *)
Definition read_of (d : dirent) : outcome (option string) :=
  scan_lines (Py.readlines (delivered (d_file d))) (failure (d_file d)).

(** The link an entry contributes to an import, if any. *)
Definition extracted (d : dirent) : option string :=
  if is_shortcut d then
    match read_of d with
    | Ok (Some url) => if truthy url then Some url else None
    | _ => None
    end
  else None.

(** The non-empty URLs extracted from a folder, one per contributing
    file, in the order of the listing. *)
Definition folder_urls (entries : list dirent) : list string :=
  omap extracted entries.

(** The text of the message box for a file that could not be read. *)
Definition could_not_read (file_path : string) (e : exn) : string * string :=
  ("Error",
   "Could not read file:" +:+ String Py.LF file_path
   +:+ String Py.LF (String Py.LF ("Error: " +:+ exn_str e))).

(** Reading the entry fails: it is read, and the read raises. *)
Definition read_fails (d : dirent) : bool :=
  is_shortcut d && match read_of d with Raise _ => true | Ok _ => false end.

(** The message box an entry causes during an import, if any. *)
Definition error_box (folder : string) (d : dirent) : option (string * string) :=
  if is_shortcut d then
    match read_of d with
    | Raise e => Some (could_not_read (path_join folder (d_name d)) e)
    | Ok _ => None
    end
  else None.

(** A field holds the list of strings [l]. *)
Definition holds (v : pyval) (l : list string) : Prop :=
  v = PyList (PyStr <$> l).

(** The invariant of a [links] field: a list of strings without
    duplicates, in ascending order of [str] comparison. *)
Definition links_inv (v : pyval) : Prop :=
  ∃ l, holds v l ∧ NoDup l ∧ StronglySorted String.le l.

Definition app_inv (a : LinkOpenerApp) : Prop :=
  links_inv (links1 a) ∧ links_inv (links2 a).

(** [a] occurs in [b] as a contiguous substring. *)
Definition is_substring (a b : string) : Prop :=
  ∃ pre post, b = pre +:+ a +:+ post.

(** The value stored under a key of a JSON object. *)
Definition stored (entries : list (string * pyval)) (key : string) : option pyval :=
  snd <$> List.find (λ kv, String.eqb kv.1 key) entries.

(** The state of the application after [import_links] has imported
    [entries] from [folder] into a slot. *)
Definition imported (layout : slot) (folder : string) (entries : list dirent)
    (a : LinkOpenerApp) : LinkOpenerApp :=
  let links := Py.sorted (Py.set (folder_urls entries)) in
  let shown := mkPanel links ("Folder: " +:+ basename folder) in
  match layout with
  | Slot1 => with_layout1 shown
               (with_folder1 (PyStr folder)
                  (with_links1 (PyList (PyStr <$> links)) a))
  | Slot2 => with_layout2 shown
               (with_folder2 (PyStr folder)
                  (with_links2 (PyList (PyStr <$> links)) a))
  end.

Definition other (l : slot) : slot :=
  match l with Slot1 => Slot2 | Slot2 => Slot1 end.

(** The characters of [s] before the first [sep], all of [s] if there
    is none. *)
Fixpoint before (sep : ascii) (s : string) : string :=
  match s with
  | EmptyString => EmptyString
  | String c t => if Ascii.eqb c sep then EmptyString else String c (before sep t)
  end.

(** The lists stored in the configuration file, when it holds a JSON
    object, satisfy the invariant of [links]. *)
Definition disk_inv (d : option config_file) : Prop :=
  ∀ entries key v,
    d = Some (Json (PyDict entries)) →
    key = "links1" ∨ key = "links2" →
    stored entries key = Some v → links_inv v.

(** Every [links] field of [w'] is the one of [w] or satisfies the
    invariant. *)
Definition mutated_ok (w w' : world) : Prop :=
  ∀ l, links_of l (self w') = links_of l (self w)
       ∨ links_inv (links_of l (self w')).

(** ** Sample inputs *)

Definition nl : string := String Py.LF "".

(** A world before [__init__] has run, with the given [config.json]. *)
Definition unstarted (d : option config_file) : world :=
  mkWorld (mkApp PyNone PyNone PyNone PyNone (mkPanel [] "") (mkPanel [] ""))
          [] d.

(** A shortcut whose URL has a query string. *)
Definition query_shortcut : file :=
  mkFile ("[InternetShortcut]" +:+ nl +:+ "URL=http://a.com/?x=1" +:+ nl) None.

(** A shortcut with two [URL=] lines. *)
Definition double_shortcut : string :=
  "[InternetShortcut]" +:+ nl +:+ "URL=http://first.com" +:+ nl
  +:+ "IconIndex=0" +:+ nl +:+ "URL=http://second.com" +:+ nl.

(** A configuration file edited by hand: unsorted, with a duplicate. *)
Definition unsorted_config : config_file :=
  Json (PyDict [("links1", PyList [PyStr "http://b.com"; PyStr "http://a.com";
                                   PyStr "http://a.com"]);
                ("links2", PyList []);
                ("folder1", PyStr "/home/me/links");
                ("folder2", PyStr "")]).

(** A configuration file as [save_config] writes it, and one that lacks
    the keys of the second slot. *)
Definition sorted_config : config_file :=
  Json (PyDict [("links1", PyList [PyStr "http://a.com"; PyStr "http://b.com"]);
                ("links2", PyList []);
                ("folder1", PyStr "/home/me/links");
                ("folder2", PyStr "")]).
Definition partial_config : list (string * pyval) :=
  [("links1", PyList [PyStr "http://a.com"]); ("folder1", PyStr "/home/me/links")].

Definition shortcut (url : string) : file :=
  mkFile ("[InternetShortcut]" +:+ nl +:+ "URL=" +:+ url +:+ nl) None.

(** The folder of the example scenario: two shortcuts to the same
    address, one to another, and a text file. *)
Definition scenario : list dirent :=
  [mkDirent "a.url" true (mkFile "URL=http://b.com" None);
   mkDirent "b.url" true (mkFile "URL=http://a.com" None);
   mkDirent "c.url" true (mkFile "URL=http://a.com" None);
   mkDirent "d.txt" true (mkFile "URL=http://q.com" None)].

(** Five shortcuts, the third of which cannot be opened. *)
Definition five_files : list dirent :=
  [mkDirent "1.url" true (shortcut "http://one.com");
   mkDirent "2.url" true (shortcut "http://two.com");
   mkDirent "3.url" true (mkFile "" (Some (OSError "[Errno 13] Permission denied: '/links/3.url'")));
   mkDirent "4.URL" true (shortcut "http://four.com");
   mkDirent "5.url" true (shortcut "http://five.com")].

Definition one_folder (entries : list dirent) : filesystem := λ _, inr entries.

(** ** Opening links *)

(** [webbrowser.open], an outside call: for each argument, whether the
    call returns ([None]) or raises. *)
Definition webbrowser := pyval → option exn.

(** Methods that call the browser give, besides their outcome, the
    arguments of the calls they made, in order. *)
Definition open_link (browser : webbrowser) (link : pyval)
  : list pyval * outcome unit :=
  ([link], match browser link with None => Ok tt | Some e => Raise e end).

(** The loop [for link in links: webbrowser.open(link)]. *)
Fixpoint open_each (browser : webbrowser) (links : list pyval)
  : list pyval * outcome unit :=
  match links with
  | [] => ([], Ok tt)
  | link :: rest =>
      match browser link with
      | None => let '(calls, r) := open_each browser rest in (link :: calls, r)
      | Some e => ([link], Raise e)
      end
  end.

Definition open_all_links (browser : webbrowser) (link_list : slot) (w : world)
  : list pyval * (outcome unit * world) :=
  match py_iter (links_of link_list (self w)) w with
  | (Ok links, w') =>
      let '(calls, r) := open_each browser links in (calls, (r, w'))
  | (Raise e, w') => ([], (Raise e, w'))
  end.

(** ** The signals connected in [create_link_panel], and [closeEvent] *)

(** The events that run a method which writes the world. An import
    comes with the answer of the folder picker and the file system at
    that time. (The double click and the button that open links only
    call the browser.) *)
Inductive event :=
| ImportClicked (layout : slot) (fs : filesystem) (picked : string)
| TextChanged (layout : slot) (text : string)
| CloseRequested.

Definition handle (ev : event) : M unit :=
  match ev with
  | ImportClicked layout fs picked => import_links fs layout picked
  | TextChanged layout text => filter_links layout text
  | CloseRequested => closeEvent
  end.

(** The worlds a run can be in after [w0]: each event leaves the world
    its handler leaves, whether the handler returned or raised. *)
Inductive reachable (w0 : world) : world → Prop :=
| reach_start : reachable w0 w0
| reach_step w ev : reachable w0 w → reachable w0 (handle ev w).2.

(** ** Further notions used in the statements *)

(** A slot in good order: its [links] is a list of strings without
    duplicates in ascending order, its list widget shows a subsequence
    of it, and its folder is a string. *)
Definition slot_ok (l : slot) (a : LinkOpenerApp) : Prop :=
  ∃ ls, holds (links_of l a) ls
        ∧ NoDup ls ∧ StronglySorted String.le ls
        ∧ sublist (link_list (layout_of l a)) ls
        ∧ ∃ f, folder_of l a = PyStr f.

(** The folders stored in the configuration file, when it holds a JSON
    object, are strings. *)
Definition disk_folders_ok (d : option config_file) : Prop :=
  ∀ entries key v,
    d = Some (Json (PyDict entries)) →
    key = "folder1" ∨ key = "folder2" →
    stored entries key = Some v → ∃ f, v = PyStr f.

(** [sep] does not occur in [s]. *)
Definition lacks (sep : ascii) (s : string) : Prop :=
  ∀ pre post, s ≠ pre +:+ String sep post.



(** The panel of a slot with its list widget emptied. *)
Definition cleared (l : slot) (w : world) : world :=
  mkWorld (with_layout l (mkPanel [] (label (layout_of l (self w)))) (self w))
          (boxes w) (disk w).

(** The lines of a file that start with the prefix. *)
Definition url_lines (text : string) : list string :=
  List.filter (Py.startswith "URL=") (Py.readlines text).

(** A browser that opens every URL. *)
Definition willing : webbrowser := λ _, None.

(** A browser that fails on one URL. *)
Definition failing_on (url : string) : webbrowser :=
  λ v, match v with
       | PyStr s => if String.eqb s url
                    then Some (OSError "could not locate runnable browser")
                    else None
       | _ => None
       end.

(** Unfolds the monad and the primitive calls. *)
Ltac run :=
  cbv [mbind M_bind mret M_ret set_self get_self raise lift try_except
       critical clear setText addItem listdir config_exists json_load
       json_dump].

(** * Properties *)

(** ** [sorted(set(l))] *)

Section sorted_set.
Implicit Types (l : list string) (s : gset string).

Lemma sorted_perm s : Py.sorted s ≡ₚ elements s.
Proof. apply merge_sort_Permutation. Qed.

Lemma elem_of_sorted_set l u : u ∈ Py.sorted (Py.set l) ↔ u ∈ l.
Proof.
  rewrite sorted_perm, elem_of_elements. unfold Py.set.
  apply elem_of_list_to_set.
Qed.

Lemma NoDup_sorted s : NoDup (Py.sorted s).
Proof. rewrite sorted_perm. apply NoDup_elements. Qed.

Lemma StronglySorted_sorted s : StronglySorted String.le (Py.sorted s).
Proof. apply (StronglySorted_merge_sort String.le). Qed.

Lemma length_sorted_set l :
  length (Py.sorted (Py.set l)) = length (remove_dups l).
Proof.
  apply Permutation_length, NoDup_Permutation.
  - apply NoDup_sorted.
  - apply NoDup_remove_dups.
  - intros u. by rewrite elem_of_sorted_set, elem_of_remove_dups.
Qed.

(** A list that is already ascending and free of duplicates is what
    [sorted(set(l))] returns for it. *)
Lemma sorted_set_id l :
  NoDup l → StronglySorted String.le l → Py.sorted (Py.set l) = l.
Proof.
  intros Hnd Hs.
  apply (Sorted_unique String.le).
  - apply StronglySorted_Sorted, StronglySorted_sorted.
  - by apply StronglySorted_Sorted.
  - apply NoDup_Permutation; [apply NoDup_sorted | done |].
    intros u. apply elem_of_sorted_set.
Qed.
End sorted_set.

(** ** Running the methods *)

Lemma world_eta w : mkWorld (self w) (boxes w) (disk w) = w.
Proof. by destruct w. Qed.

Lemma app_eta a :
  mkApp (links1 a) (links2 a) (folder1 a) (folder2 a) (layout1 a) (layout2 a) = a.
Proof. by destruct a. Qed.

Lemma panel_eta p : mkPanel (link_list p) (label p) = p.
Proof. by destruct p. Qed.

Lemma str_items_strs l : str_items (PyStr <$> l) = inr l.
Proof. induction l as [|s l IH]; csimpl; [done | by rewrite IH]. Qed.

(** [extract_url_from_shortcut] never raises: it returns what the scan
    found, or reports the exception and returns [None]. *)
Lemma extract_url_from_shortcut_run file_path f w :
  extract_url_from_shortcut file_path f w =
    match scan_lines (Py.readlines (delivered f)) (failure f) with
    | Ok r => (Ok r, w)
    | Raise e =>
        (Ok None, mkWorld (self w) (boxes w ++ [could_not_read file_path e]) (disk w))
    end.
Proof.
  unfold extract_url_from_shortcut. run.
  by destruct (scan_lines _ _).
Qed.

Lemma import_file_run folder links d w :
  import_file folder links d w =
    (Ok (links ++ option_list (extracted d)),
     mkWorld (self w) (boxes w ++ option_list (error_box folder d)) (disk w)).
Proof.
  unfold import_file, extracted, error_box, is_shortcut, read_of.
  destruct (d_isfile d && Py.endswith ".url" (Py.lower (d_name d))).
  - run. rewrite extract_url_from_shortcut_run.
    destruct (scan_lines _ _) as [[url|]|e]; simpl.
    + destruct (truthy url); simpl;
        by rewrite ?app_nil_r, world_eta.
    + by rewrite !app_nil_r, world_eta.
    + by rewrite app_nil_r.
  - run. simpl. by rewrite !app_nil_r, world_eta.
Qed.

Lemma import_loop folder entries : ∀ acc w,
  for_fold (import_file folder) acc entries w =
    (Ok (acc ++ folder_urls entries),
     mkWorld (self w) (boxes w ++ omap (error_box folder) entries) (disk w)).
Proof.
  induction entries as [|d entries IH]; intros acc w; simpl.
  - run. by rewrite !app_nil_r, world_eta.
  - unfold mbind, M_bind at 1. rewrite import_file_run, IH. simpl.
    unfold folder_urls. simpl.
    destruct (extracted d), (error_box folder d); simpl;
      by rewrite <- ?app_assoc, ?app_nil_r.
Qed.

Lemma with_layout_twice l p q a :
  with_layout l p (with_layout l q a) = with_layout l p a.
Proof. by destruct l. Qed.

Lemma layout_of_with_layout l p a : layout_of l (with_layout l p a) = p.
Proof. by destruct l. Qed.

(** The [addItem] loop of [update_link_list] on a list of strings. *)
Lemma add_loop layout ls : ∀ w,
  for_fold (λ _ link, addItem layout link) tt (PyStr <$> ls) w =
    (Ok tt,
     mkWorld (with_layout layout
                (mkPanel (link_list (layout_of layout (self w)) ++ ls)
                         (label (layout_of layout (self w))))
                (self w))
             (boxes w) (disk w)).
Proof.
  induction ls as [|s ls IH]; intros w; csimpl.
  - run. rewrite app_nil_r, panel_eta.
    destruct w as [a b d]; simpl. f_equal. f_equal.
    by destruct layout, a.
  - unfold mbind, M_bind at 1. unfold addItem, addItems. simpl.
    unfold set_self at 1. rewrite IH. simpl.
    rewrite layout_of_with_layout, with_layout_twice. simpl.
    by rewrite <- app_assoc.
Qed.

Lemma update_link_list_run layout ls w :
  holds (links_of layout (self w)) ls →
  update_link_list layout w =
    (Ok tt,
     mkWorld (with_layout layout
                (mkPanel ls (label (layout_of layout (self w)))) (self w))
             (boxes w) (disk w)).
Proof.
  intros Hls. unfold update_link_list, clear.
  unfold mbind, M_bind, set_self at 1, get_self. simpl.
  replace (links_of layout (with_layout layout _ (self w)))
    with (links_of layout (self w)) by (by destruct layout).
  rewrite Hls. simpl.
  rewrite add_loop. simpl.
  by rewrite layout_of_with_layout, with_layout_twice.
Qed.

(** A completed import: the folder was chosen and could be listed. *)
Lemma import_links_run fs layout folder entries w :
  truthy folder = true →
  fs folder = inr entries →
  import_links fs layout folder w =
    (Ok tt,
     mkWorld (imported layout folder entries (self w))
             (boxes w ++ omap (error_box folder) entries) (disk w)).
Proof.
  intros Hf Hfs. unfold import_links, listdir. rewrite Hf, Hfs.
  unfold mbind, M_bind at 1. unfold mret, M_ret at 1.
  unfold mbind, M_bind at 1. rewrite import_loop. simpl.
  set (links := Py.sorted (Py.set (folder_urls entries))).
  destruct layout.
  - unfold mbind, M_bind, set_self at 1 2, setText. simpl.
    erewrite update_link_list_run by (simpl; reflexivity). simpl.
    unfold set_self. simpl. done.
  - unfold mbind, M_bind, set_self at 1 2, setText. simpl.
    erewrite update_link_list_run by (simpl; reflexivity). simpl.
    unfold set_self. simpl. done.
Qed.

(** An import whose folder cannot be listed raises and changes nothing. *)
Lemma import_links_unlisted fs layout folder e w :
  truthy folder = true →
  fs folder = inl e →
  import_links fs layout folder w = (Raise e, w).
Proof.
  intros Hf Hfs. unfold import_links, listdir. rewrite Hf, Hfs. done.
Qed.

(** ** Lines and the [URL=] prefix *)

Lemma app_cons a p t : String a p +:+ t = String a (p +:+ t).
Proof. reflexivity. Qed.

Lemma prefix_app p : ∀ s, String.prefix p s = true ↔ ∃ t, s = p +:+ t.
Proof.
  induction p as [|a p IH]; intros s.
  - destruct s; simpl; split; eauto.
  - destruct s as [|b s]; simpl.
    + split; [done | by intros [t ?]].
    + destruct (ascii_dec a b) as [->|Hne].
      * rewrite IH. split; intros [t Ht]; exists t;
          rewrite app_cons in *; congruence.
      * split; [done | intros [t Ht]; rewrite app_cons in Ht; congruence].
Qed.

Lemma rstrip_cons c t :
  Py.isspace c = false → Py.rstrip (String c t) = String c (Py.rstrip t).
Proof. intros Hc. simpl. rewrite Hc. by destruct (Py.rstrip t). Qed.

Lemma strip_url_line v : Py.strip ("URL=" +:+ v) = "URL=" +:+ Py.rstrip v.
Proof.
  unfold Py.strip. change ("URL=" +:+ v) with (String "U" (String "R" (String "L" (String "=" v)))).
  change (Py.lstrip (String "U" ?t)) with (String "U" t).
  by rewrite !rstrip_cons.
Qed.

Lemma split_nonempty sep s : ∃ h r, Py.split sep s = h :: r.
Proof.
  induction s as [|c s (h & r & IH)]; simpl; [by eauto|].
  destruct (Ascii.eqb c sep); [by eauto|]. rewrite IH. eauto.
Qed.

(** A line that starts with [URL=] has an element of index 1 after the
    split: the [IndexError] branch is dead code. *)
Lemma url_line_index line :
  Py.startswith "URL=" line = true →
  ∃ url, Py.split "="%char (Py.strip line) !! 1 = Some url.
Proof.
  intros [v ->]%prefix_app. rewrite strip_url_line.
  destruct (split_nonempty "="%char (Py.rstrip v)) as (h & r & Hs).
  exists h. change (Py.split "="%char ("URL=" +:+ Py.rstrip v))
    with ("URL" :: Py.split "="%char (Py.rstrip v)).
  by rewrite Hs.
Qed.

(** The scan stops at the first line with the prefix. *)
Lemma scan_lines_first pre : ∀ line rest fail,
  Forall (λ l, Py.startswith "URL=" l = false) pre →
  Py.startswith "URL=" line = true →
  scan_lines (pre ++ line :: rest) fail = scan_lines [line] None.
Proof.
  induction pre as [|l pre IH]; intros line rest fail Hpre Hline; simpl.
  - by rewrite Hline.
  - inversion_clear Hpre as [|?? Hl Hpre']. rewrite Hl. by apply IH.
Qed.

Lemma split_head sep s : Py.split sep s !! 0 = Some (before sep s).
Proof.
  induction s as [|c s IH]; simpl; [done|].
  destruct (Ascii.eqb c sep); [done|].
  destruct (Py.split sep s) as [|h r]; [done|].
  simpl in *. congruence.
Qed.

Lemma before_all sep s :
  (∀ pre post, s ≠ pre +:+ String sep post) → before sep s = s.
Proof.
  induction s as [|c s IH]; intros Hs; simpl; [done|].
  destruct (Ascii.eqb_spec c sep) as [->|Hc].
  - by destruct (Hs "" s).
  - f_equal. apply IH. intros pre post ->. by apply (Hs (String c pre) post).
Qed.

(** What a line [URL=v] yields: [v] without its trailing whitespace, up
    to its first [=]. *)
Lemma url_line_value v :
  Py.split "="%char (Py.strip ("URL=" +:+ v)) !! 1
  = Some (before "="%char (Py.rstrip v)).
Proof.
  rewrite strip_url_line.
  change (Py.split "="%char ("URL=" +:+ Py.rstrip v))
    with ("URL" :: Py.split "="%char (Py.rstrip v)).
  apply split_head.
Qed.

(** The method on a file whose first line with the prefix is [URL=v]:
    it returns the text after the first [=] without its trailing
    whitespace, cut at the next [=] if there is one. *)
Lemma extract_url_value file_path text fail w pre v rest :
  Py.readlines text = pre ++ ("URL=" +:+ v) :: rest →
  Forall (λ l, Py.startswith "URL=" l = false) pre →
  extract_url_from_shortcut file_path (mkFile text fail) w
  = (Ok (Some (before "="%char (Py.rstrip v))), w).
Proof.
  intros Hlines Hpre. rewrite extract_url_from_shortcut_run. simpl.
  assert (Py.startswith "URL=" ("URL=" +:+ v) = true) as Hline
    by (apply prefix_app; by exists v).
  pose proof (url_line_value v) as Hurl.
  remember ("URL=" +:+ v) as line eqn:Heq. clear Heq.
  rewrite Hlines, scan_lines_first by done.
  simpl. rewrite Hline. unfold index. by rewrite Hurl.
Qed.

(** ** The order of [str] *)

(** [String.le] compares the first characters by code point and, when
    they are equal, the rest; the empty string comes first. Capitals
    therefore come before small letters. *)
Lemma string_le_nil s : String.le "" s.
Proof. by destruct s. Qed.

Lemma string_le_cons_nil a s : ¬ String.le (String a s) "".
Proof. intros []. Qed.

Lemma string_le_cons a s b t :
  String.le (String a s) (String b t)
  ↔ (N_of_ascii a < N_of_ascii b)%N ∨ (a = b ∧ String.le s t).
Proof.
  unfold String.le, String.leb. simpl.
  destruct (Ascii.compare a b) eqn:Hab.
  - apply Ascii.compare_eq_iff in Hab as ->. split; [by right|].
    intros [?%N.lt_irrefl|[_ ?]]; done.
  - apply N.compare_lt_iff in Hab. split; [by left | done].
  - apply N.compare_gt_iff in Hab. split; [done|].
    intros [?|[-> _]]; [by apply (N.lt_asymm _ _ Hab) | by apply (N.lt_irrefl _ Hab)].
Qed.

Example capital_before_small : String.le "B" "a" ∧ ¬ String.le "a" "B".
Proof. split; [done | by intros []]. Qed.

(** ** Substring search and the filter loop *)

Lemma contains_nil a : Py.contains a "" = String.prefix a "".
Proof. simpl. apply orb_false_r. Qed.

Lemma contains_cons a c b :
  Py.contains a (String c b) = String.prefix a (String c b) || Py.contains a b.
Proof. reflexivity. Qed.

Lemma contains_substring a : ∀ b, Py.contains a b = true ↔ is_substring a b.
Proof.
  induction b as [|c b IH]; rewrite ?contains_nil, ?contains_cons.
  - rewrite prefix_app. split.
    + intros [t Ht]. by exists "", t.
    + intros ([|??] & post & Hb); [by exists post | done].
  - rewrite orb_true_iff, prefix_app, IH. split.
    + intros [[t Ht]|(pre & post & ->)].
      * by exists "", t.
      * by exists (String c pre), post.
    + intros ([|c' pre] & post & Hb).
      * left. by exists post.
      * right. rewrite app_cons in Hb. injection Hb as -> ->. by exists pre, post.
Qed.

Lemma contains_empty b : Py.contains "" b = true.
Proof. apply contains_substring. by exists "", b. Qed.

(** The comprehension of [filter_links] reads no state and writes none. *)
Lemma keep_match_loop_state q items : ∀ acc w,
  (for_fold (keep_match q) acc items w).2 = w.
Proof.
  induction items as [|v items IH]; intros acc w; simpl; [done|].
  unfold mbind, M_bind at 1. unfold keep_match at 1.
  destruct v; simpl; auto.
Qed.

Lemma keep_match_loop q ls : ∀ acc w,
  for_fold (keep_match q) acc (PyStr <$> ls) w =
    (Ok (acc ++ (PyStr <$> List.filter (λ l, Py.contains q (Py.lower l)) ls)), w).
Proof.
  induction ls as [|l ls IH]; intros acc w; csimpl.
  - run. by rewrite app_nil_r.
  - unfold mbind, M_bind at 1. unfold keep_match at 1. simpl.
    rewrite IH. destruct (Py.contains q (Py.lower l)); csimpl; [|done].
    by rewrite <- app_assoc.
Qed.

Lemma filter_links_run link_list0 search_text ls w :
  holds (links_of link_list0 (self w)) ls →
  filter_links link_list0 search_text w =
    (Ok tt,
     mkWorld
       (with_layout link_list0
          (mkPanel
             (List.filter
                (λ l, Py.contains (Py.lower search_text) (Py.lower l)) ls)
             (label (layout_of link_list0 (self w))))
          (self w))
       (boxes w) (disk w)).
Proof.
  intros Hls. unfold filter_links, clear, get_self.
  unfold mbind, M_bind at 1 2. unfold set_self at 1.
  unfold mbind, M_bind at 1. rewrite Hls. simpl.
  unfold mbind, M_bind at 1. rewrite keep_match_loop. simpl.
  unfold addItems. rewrite str_items_strs. unfold set_self. simpl.
  by rewrite layout_of_with_layout, with_layout_twice.
Qed.

(** Whatever the fields hold, and whether it returns or raises,
    [filter_links] only writes the list widget of its own panel. *)
Lemma filter_links_frame link_list0 search_text w :
  ∃ r items,
    filter_links link_list0 search_text w =
      (r, mkWorld
            (with_layout link_list0
               (mkPanel items (label (layout_of link_list0 (self w)))) (self w))
            (boxes w) (disk w)).
Proof.
  unfold filter_links, clear, get_self.
  unfold mbind, M_bind at 1 2. unfold set_self at 1.
  set (w1 := mkWorld _ _ _).
  unfold mbind, M_bind at 1.
  assert ((py_iter (links_of link_list0 (self w)) w1).2 = w1) as Hiter.
  { by destruct (links_of link_list0 (self w)). }
  destruct (py_iter (links_of link_list0 (self w)) w1) as [[items|e] w2];
    simpl in Hiter; subst w2.
  - unfold mbind, M_bind at 1.
    pose proof (keep_match_loop_state (Py.lower search_text) items [] w1) as Hst.
    destruct (for_fold _ _ _ _) as [[kept|e] w3]; simpl in Hst; subst w3.
    + unfold addItems. destruct (str_items kept) as [e|strs].
      * by exists (Raise e), [].
      * exists (Ok tt), strs. unfold set_self, w1. simpl.
        by rewrite layout_of_with_layout, with_layout_twice.
    + by exists (Raise e), [].
  - by exists (Raise e), [].
Qed.

(** ** The configuration file *)

Lemma load_config_absent a b :
  load_config (mkWorld a b None) = (Ok tt, mkWorld a b None).
Proof. reflexivity. Qed.

Lemma load_config_not_json a b e :
  load_config (mkWorld a b (Some (NotJson e)))
  = (Raise e, mkWorld a b (Some (NotJson e))).
Proof. reflexivity. Qed.

(** On a JSON object all four fields are assigned, each from its key or
    from its default. *)
Lemma load_config_object a b entries :
  load_config (mkWorld a b (Some (Json (PyDict entries))))
  = (Ok tt,
     mkWorld (mkApp (default (PyList []) (stored entries "links1"))
                    (default (PyList []) (stored entries "links2"))
                    (default (PyStr "") (stored entries "folder1"))
                    (default (PyStr "") (stored entries "folder2"))
                    (layout1 a) (layout2 a))
             b (Some (Json (PyDict entries)))).
Proof. reflexivity. Qed.

(** On any other JSON document the first [config.get] raises, before
    any assignment. *)
Lemma load_config_not_object a b doc :
  (∀ entries, doc ≠ PyDict entries) →
  load_config (mkWorld a b (Some (Json doc)))
  = (Raise (AttributeError
              ("'" +:+ type_name doc +:+ "' object has no attribute 'get'")),
     mkWorld a b (Some (Json doc))).
Proof. intros Hdoc. destruct doc; try reflexivity. by destruct (Hdoc entries). Qed.

Lemma load_config_raise_unchanged w e w' :
  load_config w = (Raise e, w') → w' = w.
Proof.
  destruct w as [a b [[doc|e0]|]].
  - destruct doc; try (rewrite load_config_not_object by done; congruence).
    by rewrite load_config_object.
  - rewrite load_config_not_json. congruence.
  - by rewrite load_config_absent.
Qed.

Lemma save_config_run w :
  save_config w =
    (Ok tt,
     mkWorld (self w) (boxes w)
       (Some (Json (PyDict [("links1", links1 (self w));
                            ("links2", links2 (self w));
                            ("folder1", folder1 (self w));
                            ("folder2", folder2 (self w))])))).
Proof. reflexivity. Qed.

Lemma init_run a b d :
  __init__ (mkWorld a b d) =
    load_config
      (mkWorld (mkApp (PyList []) (PyList []) (PyStr "") (PyStr "")
                      (mkPanel [] "Linklist 1") (mkPanel [] "Linklist 2"))
               b d).
Proof. reflexivity. Qed.

Lemma stored_missing entries key :
  key ∉ entries.*1 → stored entries key = None.
Proof.
  unfold stored. induction entries as [|[k v] entries IH]; csimpl; [done|].
  intros Hk. apply not_elem_of_cons in Hk as [Hne Hk].
  destruct (String.eqb_spec k key) as [->|_]; [done | by apply IH].
Qed.

(** * The claims *)

(** C1 (the code differs): a first [URL=] line whose value contains [=]
    does not yield the whole text after the first [=]. For the line
    [URL=http://a.com/?x=1] the method returns [http://a.com/?x], the text
    between the first and the second [=], and not [http://a.com/?x=1]. *)
Theorem extract_url_stops_at_second_equals file_path w :
  extract_url_from_shortcut file_path query_shortcut w
  = (Ok (Some "http://a.com/?x"), w)
  ∧ (extract_url_from_shortcut file_path query_shortcut w).1
    ≠ Ok (Some "http://a.com/?x=1").
Proof. split; [reflexivity | discriminate]. Qed.

(** C7: when the lines of a file are [pre], then a line starting with
    [URL=], then [rest], and no line of [pre] starts with [URL=], the
    method returns the URL of that line, whatever [rest] holds (further
    [URL=] lines included) and whether or not the read fails later; no
    error is reported. *)
Theorem extract_url_first_line_only file_path text fail w pre line rest :
  Py.readlines text = pre ++ line :: rest →
  Forall (λ l, Py.startswith "URL=" l = false) pre →
  Py.startswith "URL=" line = true →
  ∃ url,
    Py.split "="%char (Py.strip line) !! 1 = Some url
    ∧ extract_url_from_shortcut file_path (mkFile text fail) w
      = (Ok (Some url), w).
Proof.
  intros Hlines Hpre Hline.
  destruct (url_line_index line Hline) as [url Hurl].
  exists url. split; [done|].
  rewrite extract_url_from_shortcut_run. simpl.
  rewrite Hlines, scan_lines_first by done.
  simpl. rewrite Hline. unfold index. by rewrite Hurl.
Qed.

Lemma extract_url_first_line_only_witness :
  ∃ url,
    Py.split "="%char (Py.strip ("URL=http://first.com" +:+ nl)) !! 1 = Some url
    ∧ extract_url_from_shortcut "/links/x.url" (mkFile double_shortcut None)
        (unstarted None)
      = (Ok (Some url), unstarted None).
Proof.
  apply (extract_url_first_line_only "/links/x.url" double_shortcut None
           (unstarted None) ["[InternetShortcut]" +:+ nl]
           ("URL=http://first.com" +:+ nl)
           ["IconIndex=0" +:+ nl; "URL=http://second.com" +:+ nl]).
  - reflexivity.
  - repeat constructor.
  - reflexivity.
Defined.

(** C9: when the folder picker returns the empty string, [import_links]
    returns normally and the world is the one it started in: no field of
    either slot changes and no message box is shown. *)
Theorem import_links_cancelled_noop fs layout w :
  import_links fs layout "" w = (Ok tt, w).
Proof. reflexivity. Qed.

(** C10: when [config.json] exists and is not valid JSON, [load_config]
    raises the exception of [json.load] and leaves the world as it was;
    and whenever [load_config] raises, the world is unchanged. *)
Theorem load_config_invalid_json :
  (∀ a b e,
     load_config (mkWorld a b (Some (NotJson e)))
     = (Raise e, mkWorld a b (Some (NotJson e))))
  ∧ (∀ w e w', load_config w = (Raise e, w') → w' = w).
Proof. split; [apply load_config_not_json | apply load_config_raise_unchanged]. Qed.

Lemma load_config_invalid_json_witness :
  let w := mkWorld (self (__init__ (unstarted (Some sorted_config))).2) []
             (Some (NotJson (JSONDecodeError "Expecting value: line 1 column 1 (char 0)"))) in
  ∃ e w', load_config w = (Raise e, w') ∧ w' = w.
Proof.
  intros w. eexists _, _. split; [reflexivity|].
  apply (proj2 load_config_invalid_json w
           (JSONDecodeError "Expecting value: line 1 column 1 (char 0)")).
  reflexivity.
Defined.

(** C6: [save_config] returns normally, and a fresh instance started on
    the file it wrote holds the same [links1], [links2], [folder1] and
    [folder2] (the very same values, hence the same sets of links); a
    fresh instance started without a file holds empty lists and empty
    strings; and loading a JSON object gives a field whose key is missing
    its default, the empty list or the empty string. *)
Theorem save_then_load_roundtrip :
  (∀ w a0 b0,
     (save_config w).1 = Ok tt
     ∧ ∃ a', __init__ (mkWorld a0 b0 (disk (save_config w).2))
             = (Ok tt, mkWorld a' b0 (disk (save_config w).2))
       ∧ links1 a' = links1 (self w) ∧ links2 a' = links2 (self w)
       ∧ folder1 a' = folder1 (self w) ∧ folder2 a' = folder2 (self w))
  ∧ (∀ a0 b0,
       ∃ a', __init__ (mkWorld a0 b0 None) = (Ok tt, mkWorld a' b0 None)
         ∧ links1 a' = PyList [] ∧ links2 a' = PyList []
         ∧ folder1 a' = PyStr "" ∧ folder2 a' = PyStr "")
  ∧ (∀ a0 b0 entries,
       ∃ a', load_config (mkWorld a0 b0 (Some (Json (PyDict entries))))
             = (Ok tt, mkWorld a' b0 (Some (Json (PyDict entries))))
         ∧ ("links1" ∉ entries.*1 → links1 a' = PyList [])
         ∧ ("links2" ∉ entries.*1 → links2 a' = PyList [])
         ∧ ("folder1" ∉ entries.*1 → folder1 a' = PyStr "")
         ∧ ("folder2" ∉ entries.*1 → folder2 a' = PyStr "")).
Proof.
  split; [|split].
  - intros w a0 b0. split; [done|].
    rewrite save_config_run, init_run. simpl.
    rewrite load_config_object. eexists. split; [reflexivity|]. done.
  - intros a0 b0. rewrite init_run, load_config_absent.
    eexists. split; [reflexivity|]. done.
  - intros a0 b0 entries. rewrite load_config_object.
    eexists. split; [reflexivity|]. simpl.
    repeat split; intros ->%stored_missing; done.
Qed.

Lemma save_then_load_roundtrip_witness :
  ∃ a', load_config (unstarted (Some (Json (PyDict partial_config))))
        = (Ok tt, mkWorld a' [] (Some (Json (PyDict partial_config))))
    ∧ links1 a' = PyList [PyStr "http://a.com"]
    ∧ links2 a' = PyList []
    ∧ folder1 a' = PyStr "/home/me/links"
    ∧ folder2 a' = PyStr "".
Proof.
  destruct (proj2 (proj2 save_then_load_roundtrip)
              (self (unstarted None)) [] partial_config)
    as (a' & Hrun & _ & H2 & _ & H4).
  exists a'. split; [exact Hrun|].
  split; [by injection Hrun as <-|].
  split; [apply H2; apply (bool_decide_unpack _); vm_compute; exact I|].
  split; [by injection Hrun as <-|].
  apply H4; apply (bool_decide_unpack _); vm_compute; exact I.
Defined.

Lemma filter_sublist {A} (f : A → bool) (l : list A) :
  sublist (List.filter f l) l.
Proof.
  induction l as [|x l IH]; simpl; [constructor|].
  destruct (f x); by constructor.
Qed.

Lemma filter_all {A} (f : A → bool) (l : list A) :
  (∀ x, f x = true) → List.filter f l = l.
Proof.
  intros Hf. induction l as [|x l IH]; simpl; [done|].
  by rewrite Hf, IH.
Qed.

(** C5: [filter_links] leaves [links1], [links2], [folder1] and
    [folder2] as they were, whatever they hold. When the slot holds the
    list of strings [ls], it returns normally and the list widget of the
    panel then shows a subsequence of [ls]: exactly the elements [l], in
    their order in [ls], such that the lower-cased search text occurs in
    the lower-cased [l]; for the empty search text it shows [ls]. *)
Theorem filter_links_subsequence link_list0 search_text w :
  let w' := (filter_links link_list0 search_text w).2 in
  (links1 (self w') = links1 (self w) ∧ links2 (self w') = links2 (self w)
   ∧ folder1 (self w') = folder1 (self w) ∧ folder2 (self w') = folder2 (self w))
  ∧ ∀ ls, holds (links_of link_list0 (self w)) ls →
      (filter_links link_list0 search_text w).1 = Ok tt
      ∧ sublist (link_list (layout_of link_list0 (self w'))) ls
      ∧ (∀ f : string → bool,
           (∀ l, f l = true ↔ is_substring (Py.lower search_text) (Py.lower l)) →
           link_list (layout_of link_list0 (self w')) = List.filter f ls)
      ∧ (search_text = "" → link_list (layout_of link_list0 (self w')) = ls).
Proof.
  intros w'. split.
  - destruct (filter_links_frame link_list0 search_text w) as (r & items & Hrun).
    subst w'. rewrite Hrun. by destruct link_list0.
  - intros ls Hls. subst w'. rewrite (filter_links_run _ _ ls) by done.
    simpl. rewrite layout_of_with_layout. simpl.
    split; [done|]. split; [apply filter_sublist|]. split.
    + intros f Hf. apply List.filter_ext. intros l.
      apply eq_true_iff_eq. by rewrite Hf, contains_substring.
    + intros ->. apply filter_all. intros l. apply contains_empty.
Qed.

Lemma filter_links_subsequence_witness :
  let w := (import_links (one_folder scenario) Slot1 "/links"
              (__init__ (unstarted None)).2).2 in
  let w' := (filter_links Slot1 "A.C" w).2 in
  (filter_links Slot1 "A.C" w).1 = Ok tt
  ∧ sublist (link_list (layout1 (self w'))) ["http://a.com"; "http://b.com"]
  ∧ link_list (layout1 (self w')) = ["http://a.com"]
  ∧ links1 (self w') = PyList [PyStr "http://a.com"; PyStr "http://b.com"].
Proof.
  intros w w'.
  destruct (filter_links_subsequence Slot1 "A.C" w) as [(H1 & _) Hshown].
  destruct (Hshown ["http://a.com"; "http://b.com"]) as (Hok & Hsub & _).
  { vm_compute. reflexivity. }
  split; [exact Hok|]. split; [exact Hsub|].
  split; [vm_compute; reflexivity|].
  subst w'. rewrite H1. vm_compute. reflexivity.
Defined.

(** ** Imports *)

Lemma import_links_falsy fs layout folder w :
  truthy folder = false → import_links fs layout folder w = (Ok tt, w).
Proof. intros Hf. unfold import_links. by rewrite Hf. Qed.

(** The three ways an import can go. *)
Lemma import_links_cases fs layout folder w :
  import_links fs layout folder w = (Ok tt, w)
  ∨ (∃ e, import_links fs layout folder w = (Raise e, w))
  ∨ (∃ entries,
       truthy folder = true ∧ fs folder = inr entries
       ∧ import_links fs layout folder w =
           (Ok tt,
            mkWorld (imported layout folder entries (self w))
                    (boxes w ++ omap (error_box folder) entries) (disk w))).
Proof.
  destruct (truthy folder) eqn:Hf.
  - destruct (fs folder) as [e|entries] eqn:Hfs.
    + right; left. exists e. by apply import_links_unlisted.
    + right; right. exists entries. by rewrite (import_links_run _ _ _ entries).
  - left. by apply import_links_falsy.
Qed.

Lemma folder_urls_shortcuts_only entries :
  folder_urls
    (List.filter (λ d, Py.endswith ".url" (Py.lower (d_name d))) entries)
  = folder_urls entries.
Proof.
  unfold folder_urls. induction entries as [|d entries IH]; [done|].
  cbn [List.filter].
  destruct (Py.endswith ".url" (Py.lower (d_name d))) eqn:Hd; csimpl.
  - by rewrite IH.
  - rewrite IH. unfold extracted, is_shortcut. by rewrite Hd, andb_false_r.
Qed.

Lemma read_fails_extracted d : read_fails d = true → extracted d = None.
Proof.
  unfold read_fails, extracted. destruct (is_shortcut d); [|done].
  by destruct (read_of d).
Qed.

Lemma folder_urls_without_failing entries :
  folder_urls (List.filter (λ d, negb (read_fails d)) entries)
  = folder_urls entries.
Proof.
  unfold folder_urls. induction entries as [|d entries IH]; [done|].
  cbn [List.filter].
  destruct (read_fails d) eqn:Hd; csimpl.
  - by rewrite IH, (read_fails_extracted d).
  - by rewrite IH.
Qed.

Lemma error_box_read_fails folder d :
  match error_box folder d with
  | Some box =>
      read_fails d = true
      ∧ ∃ e, read_of d = Raise e
             ∧ box = could_not_read (path_join folder (d_name d)) e
  | None => read_fails d = false
  end.
Proof.
  unfold error_box, read_fails. destruct (is_shortcut d); [|done].
  destruct (read_of d) as [r|e]; [done|]. split; [done|]. by exists e.
Qed.

Lemma error_boxes_count folder entries :
  length (omap (error_box folder) entries)
  = length (List.filter read_fails entries).
Proof.
  induction entries as [|d entries IH]; [done|].
  cbn [List.filter]. csimpl.
  pose proof (error_box_read_fails folder d) as Hd.
  destruct (error_box folder d) as [box|].
  - destruct Hd as [-> _]. simpl. by rewrite IH.
  - by rewrite Hd.
Qed.

Lemma links_of_imported layout folder entries a :
  links_of layout (imported layout folder entries a)
  = PyList (PyStr <$> Py.sorted (Py.set (folder_urls entries)))
  ∧ folder_of layout (imported layout folder entries a) = PyStr folder
  ∧ links_of (other layout) (imported layout folder entries a)
    = links_of (other layout) a
  ∧ folder_of (other layout) (imported layout folder entries a)
    = folder_of (other layout) a.
Proof. by destruct layout. Qed.

(** C3: an import of a folder that could be listed returns normally and
    leaves in the slot a list of strings with exactly the non-empty URLs
    extracted from the regular files named [*.url] (in any case of the
    letters): it has the same elements, no duplicates, ascending order of
    [str] comparison, and as many elements as there are distinct URLs.
    Entries whose name does not end in [.url] contribute nothing: the
    import of the folder without them gives the same list. *)
Theorem import_links_sorted_distinct fs layout folder entries w :
  truthy folder = true →
  fs folder = inr entries →
  (import_links fs layout folder w).1 = Ok tt
  ∧ ∃ links,
      holds (links_of layout (self (import_links fs layout folder w).2)) links
      ∧ (∀ u, u ∈ links ↔ u ∈ folder_urls entries)
      ∧ NoDup links
      ∧ StronglySorted String.le links
      ∧ length links = length (remove_dups (folder_urls entries))
      ∧ holds
          (links_of layout
             (self (import_links
                      (one_folder
                         (List.filter
                            (λ d, Py.endswith ".url" (Py.lower (d_name d)))
                            entries))
                      layout folder w).2))
          links.
Proof.
  intros Hf Hfs. rewrite (import_links_run _ _ _ entries) by done.
  split; [done|].
  exists (Py.sorted (Py.set (folder_urls entries))). simpl.
  split; [apply links_of_imported|].
  split; [intros u; apply elem_of_sorted_set|].
  split; [apply NoDup_sorted|].
  split; [apply StronglySorted_sorted|].
  split; [apply length_sorted_set|].
  erewrite import_links_run by (done || reflexivity).
  cbn [snd self]. unfold holds.
  rewrite (proj1 (links_of_imported _ _ _ _)).
  by rewrite folder_urls_shortcuts_only.
Qed.

Lemma import_links_sorted_distinct_witness :
  (import_links (one_folder scenario) Slot1 "/links" (unstarted None)).1 = Ok tt
  ∧ ∃ links,
      holds (links1 (self (import_links (one_folder scenario) Slot1 "/links"
                             (unstarted None)).2)) links
      ∧ links = ["http://a.com"; "http://b.com"].
Proof.
  destruct (import_links_sorted_distinct (one_folder scenario) Slot1 "/links"
              scenario (unstarted None) eq_refl eq_refl)
    as (Hok & links & Hholds & _).
  split; [exact Hok|]. exists links. split; [exact Hholds|].
  vm_compute in Hholds. injection Hholds as Hl.
  destruct links as [|a [|b [|c links]]]; try discriminate Hl.
  by injection Hl as <- <-.
Defined.

(** C4: an import of a folder that could be listed returns normally
    however many of its files fail to be read. It shows one message box
    per file whose read fails, in the order of the listing, naming the
    file and the exception, and no other box; a file whose read fails
    contributes no link; every link extracted from another file is in
    the list of the slot; and the links imported are those of the folder
    without the failing files. *)
Theorem import_links_skips_unreadable fs layout folder entries w :
  truthy folder = true →
  fs folder = inr entries →
  (import_links fs layout folder w).1 = Ok tt
  ∧ boxes (import_links fs layout folder w).2
    = boxes w ++ omap (error_box folder) entries
  ∧ length (boxes (import_links fs layout folder w).2)
    = length (boxes w) + length (List.filter read_fails entries)
  ∧ (∀ d, read_fails d = true →
          extracted d = None
          ∧ ∃ e, read_of d = Raise e
                 ∧ error_box folder d
                   = Some (could_not_read (path_join folder (d_name d)) e))
  ∧ (∀ d, read_fails d = false → error_box folder d = None)
  ∧ (∀ d url, d ∈ entries → extracted d = Some url →
       ∃ links,
         holds (links_of layout (self (import_links fs layout folder w).2)) links
         ∧ url ∈ links)
  ∧ links_of layout (self (import_links fs layout folder w).2)
    = links_of layout
        (self (import_links
                 (one_folder (List.filter (λ d, negb (read_fails d)) entries))
                 layout folder w).2).
Proof.
  intros Hf Hfs. rewrite (import_links_run _ _ _ entries) by done.
  cbn [fst snd self boxes].
  split; [done|]. split; [done|].
  split; [by rewrite length_app, error_boxes_count|].
  split; [|split; [|split]].
  - intros d Hd. split; [by apply read_fails_extracted|].
    pose proof (error_box_read_fails folder d) as Hbox.
    destruct (error_box folder d) as [box|]; [|congruence].
    destruct Hbox as (_ & e & He & ->). by exists e.
  - intros d Hd.
    pose proof (error_box_read_fails folder d) as Hbox.
    destruct (error_box folder d) as [box|]; [|done].
    destruct Hbox as [Hbox _]. congruence.
  - intros d url Hd Hurl.
    exists (Py.sorted (Py.set (folder_urls entries))).
    split; [apply links_of_imported|].
    apply elem_of_sorted_set, list_elem_of_omap. by exists d.
  - erewrite (import_links_run (one_folder _)) by (done || reflexivity).
    cbn [snd self].
    rewrite !(proj1 (links_of_imported _ _ _ _)).
    by rewrite folder_urls_without_failing.
Qed.

Lemma import_links_skips_unreadable_witness :
  let r := import_links (one_folder five_files) Slot2 "/links" (unstarted None) in
  r.1 = Ok tt
  ∧ length (boxes r.2) = 1
  ∧ links2 (self r.2)
    = PyList [PyStr "http://five.com"; PyStr "http://four.com";
              PyStr "http://one.com"; PyStr "http://two.com"].
Proof.
  intros r.
  destruct (import_links_skips_unreadable (one_folder five_files) Slot2
              "/links" five_files (unstarted None) eq_refl eq_refl)
    as (Hok & _ & Hcount & _).
  split; [exact Hok|]. split; [exact Hcount|].
  vm_compute. reflexivity.
Defined.

(** C8: [import_links] on one slot leaves [links] and the folder of the
    other slot as they were, whether it imports, is cancelled or raises.
    When it imports, the slot's folder is the chosen one and its [links]
    are the sorted distinct URLs of that folder, the same whatever the
    slots held before: nothing of the previous list is kept. *)
Theorem import_links_replaces_one_slot fs layout folder w :
  links_of (other layout) (self (import_links fs layout folder w).2)
  = links_of (other layout) (self w)
  ∧ folder_of (other layout) (self (import_links fs layout folder w).2)
    = folder_of (other layout) (self w)
  ∧ ∀ entries,
      truthy folder = true →
      fs folder = inr entries →
      links_of layout (self (import_links fs layout folder w).2)
      = PyList (PyStr <$> Py.sorted (Py.set (folder_urls entries)))
      ∧ folder_of layout (self (import_links fs layout folder w).2)
        = PyStr folder
      ∧ ∀ w0,
          links_of layout (self (import_links fs layout folder w0).2)
          = links_of layout (self (import_links fs layout folder w).2).
Proof.
  split; [|split].
  - destruct (import_links_cases fs layout folder w)
      as [->|[[e ->]|(entries & _ & _ & ->)]]; [done..|].
    apply links_of_imported.
  - destruct (import_links_cases fs layout folder w)
      as [->|[[e ->]|(entries & _ & _ & ->)]]; [done..|].
    apply links_of_imported.
  - intros entries Hf Hfs. rewrite (import_links_run _ _ _ entries) by done.
    cbn [snd self].
    split; [apply links_of_imported|]. split; [apply links_of_imported|].
    intros w0. rewrite (import_links_run _ _ _ entries) by done.
    cbn [snd self]. by rewrite !(proj1 (links_of_imported _ _ _ _)).
Qed.

Lemma import_links_replaces_one_slot_witness :
  let w := (import_links (one_folder five_files) Slot1 "/old"
              (__init__ (unstarted (Some sorted_config))).2).2 in
  let w' := (import_links (one_folder scenario) Slot1 "/links" w).2 in
  links1 (self w)
  = PyList [PyStr "http://five.com"; PyStr "http://four.com";
            PyStr "http://one.com"; PyStr "http://two.com"]
  ∧ links1 (self w') = PyList [PyStr "http://a.com"; PyStr "http://b.com"]
  ∧ folder1 (self w') = PyStr "/links"
  ∧ links2 (self w') = links2 (self w)
  ∧ folder2 (self w') = folder2 (self w).
Proof.
  intros w w'.
  destruct (import_links_replaces_one_slot (one_folder scenario) Slot1
              "/links" w) as (Hl2 & Hf2 & Hnew).
  destruct (Hnew scenario eq_refl eq_refl) as (Hl1 & Hf1 & _).
  split; [vm_compute; reflexivity|].
  split; [etrans; [exact Hl1 | vm_compute; reflexivity]|].
  split; [exact Hf1|]. split; [exact Hl2 | exact Hf2].
Defined.

(** ** The invariant of [links] *)

Lemma links_inv_empty : links_inv (PyList []).
Proof. exists []. repeat split; constructor. Qed.

Lemma links_inv_sorted_set l : links_inv (PyList (PyStr <$> Py.sorted (Py.set l))).
Proof.
  exists (Py.sorted (Py.set l)).
  split; [done|]. split; [apply NoDup_sorted | apply StronglySorted_sorted].
Qed.

Lemma mutated_ok_same w w' :
  links1 (self w') = links1 (self w) →
  links2 (self w') = links2 (self w) →
  mutated_ok w w'.
Proof. intros H1 H2 [|]; by left. Qed.

Lemma links_inv_loaded d entries key :
  disk_inv d →
  d = Some (Json (PyDict entries)) →
  key = "links1" ∨ key = "links2" →
  links_inv (default (PyList []) (stored entries key)).
Proof.
  intros Hd Hdisk Hkey.
  destruct (stored entries key) as [v|] eqn:Hv; simpl.
  - by apply (Hd entries key v).
  - apply links_inv_empty.
Qed.

(** C2 (as stated, false for [load_config]): a configuration file whose
    first list is unsorted and has a duplicate is loaded normally, and
    [links1] is then that very list. *)
Lemma load_config_restores_unsorted :
  let w := mkWorld (self (__init__ (unstarted None)).2) []
                   (Some unsorted_config) in
  (load_config w).1 = Ok tt
  ∧ links1 (self (load_config w).2)
    = PyList [PyStr "http://b.com"; PyStr "http://a.com"; PyStr "http://a.com"]
  ∧ links1 (self (load_config w).2) ≠ links1 (self w)
  ∧ ¬ links_inv (links1 (self (load_config w).2)).
Proof.
  intros w. split; [reflexivity|]. split; [reflexivity|].
  split; [discriminate|].
  intros (l & Hl & Hnd & _). vm_compute in Hl. injection Hl as Hl.
  destruct l as [|x [|y [|z [|? ?]]]]; try discriminate Hl.
  injection Hl as <- <- <-.
  apply NoDup_cons in Hnd as [_ Hnd]. apply NoDup_cons in Hnd as [Hin _].
  apply Hin. left.
Qed.

(** C2 (amended): after [import_links], [filter_links] and [save_config]
    each [links] field is either the one it was or a list of strings
    without duplicates in ascending order; the same holds after
    [load_config], and the invariant holds in a fresh instance, when the
    lists stored in the configuration file are themselves without
    duplicates and ascending; and [save_config] writes such a file from
    a state that satisfies the invariant. *)
Theorem links_sorted_after_mutation :
  (∀ fs layout folder w, mutated_ok w (import_links fs layout folder w).2)
  ∧ (∀ link_list0 search_text w,
       mutated_ok w (filter_links link_list0 search_text w).2)
  ∧ (∀ w, mutated_ok w (save_config w).2)
  ∧ (∀ w, disk_inv (disk w) → mutated_ok w (load_config w).2)
  ∧ (∀ w, disk_inv (disk w) → app_inv (self (__init__ w).2))
  ∧ (∀ w, app_inv (self w) → disk_inv (disk (save_config w).2)).
Proof.
  repeat split.
  - intros fs layout folder w.
    destruct (import_links_cases fs layout folder w)
      as [->|[[e ->]|(entries & _ & _ & ->)]]; [by apply mutated_ok_same..|].
    intros l. cbn [snd self].
    destruct l, layout; simpl; (by left) || (right; apply links_inv_sorted_set).
  - intros link_list0 search_text w.
    destruct (filter_links_frame link_list0 search_text w) as (r & items & ->).
    apply mutated_ok_same; by destruct link_list0.
  - intros w. by apply mutated_ok_same.
  - intros [a b [[doc|e]|]] Hd; [|by apply mutated_ok_same..].
    destruct doc;
      try (rewrite load_config_not_object by done; by apply mutated_ok_same).
    rewrite load_config_object. intros [|]; right; simpl;
      eapply links_inv_loaded; eauto.
  - destruct w as [a b [[doc|e]|]]; rewrite init_run;
      [|rewrite load_config_not_json; apply links_inv_empty
       |rewrite load_config_absent; apply links_inv_empty].
    destruct doc;
      try (rewrite load_config_not_object by done; apply links_inv_empty).
    rewrite load_config_object. simpl. eapply links_inv_loaded; eauto.
  - destruct w as [a b [[doc|e]|]]; rewrite init_run;
      [|rewrite load_config_not_json; apply links_inv_empty
       |rewrite load_config_absent; apply links_inv_empty].
    destruct doc;
      try (rewrite load_config_not_object by done; apply links_inv_empty).
    rewrite load_config_object. simpl. eapply links_inv_loaded; eauto.
  - intros w [H1 H2] entries key v. rewrite save_config_run. simpl.
    intros [= <-] [->| ->]; vm_compute; intros [= <-]; done.
Qed.

Lemma sorted_config_inv : disk_inv (Some sorted_config).
Proof.
  intros entries key v [= <-] [->| ->]; vm_compute; intros [= <-].
  - exists ["http://a.com"; "http://b.com"].
    split; [reflexivity|]. split.
    + apply (bool_decide_unpack _). vm_compute. exact I.
    + repeat constructor.
  - exists []. repeat split; constructor.
Defined.

Lemma links_sorted_after_mutation_witness :
  let w := mkWorld (self (import_links (one_folder five_files) Slot1 "/old"
                            (__init__ (unstarted None)).2).2)
                   [] (Some sorted_config) in
  mutated_ok w (load_config w).2
  ∧ app_inv (self (__init__ w).2)
  ∧ disk_inv (disk (save_config (__init__ w).2).2).
Proof.
  intros w.
  destruct links_sorted_after_mutation as (_ & _ & _ & Hload & Hinit & Hsave).
  split; [exact (Hload w sorted_config_inv)|].
  split; [exact (Hinit w sorted_config_inv)|].
  exact (Hsave _ (Hinit w sorted_config_inv)).
Defined.

(** * Further properties of the code *)

(** ** [extract_url_from_shortcut] *)

Lemma before_lacks sep s : lacks sep (before sep s).
Proof.
  induction s as [|c s IH]; intros pre post; simpl.
  - by destruct pre.
  - destruct (Ascii.eqb_spec c sep) as [->|Hc]; [by destruct pre|].
    destruct pre as [|c' pre]; rewrite ?app_cons.
    + intros [= -> _]. done.
    + intros [= _ Hs]. by apply (IH pre post).
Qed.

Lemma scan_lines_skips lines fail :
  scan_lines lines fail
  = scan_lines (List.filter (Py.startswith "URL=") lines) fail.
Proof.
  induction lines as [|line lines IH]; [done|].
  cbn [List.filter scan_lines].
  destruct (Py.startswith "URL=" line) eqn:Hline; [|done].
  cbn [scan_lines]. by rewrite Hline.
Qed.

Lemma scan_lines_head lines rest line fail fail' :
  Py.startswith "URL=" line = true →
  scan_lines (line :: lines) fail = scan_lines (line :: rest) fail'.
Proof. intros Hline. cbn [scan_lines]. by rewrite Hline. Qed.

Lemma scan_lines_some_lacks lines fail url :
  scan_lines lines fail = Ok (Some url) → lacks "="%char url.
Proof.
  induction lines as [|line lines IH]; cbn [scan_lines].
  - by destruct fail.
  - destruct (Py.startswith "URL=" line) eqn:Hline; [|done].
    apply prefix_app in Hline as [v ->].
    unfold index. rewrite url_line_value. intros [= <-].
    apply before_lacks.
Qed.

(** The method never raises: whatever the file gives, it returns, the
    application object and the configuration file are as they were, and
    at most one message box was shown, and then the result is [None]. *)
Theorem extract_url_never_raises file_path f w :
  ∃ r,
    (extract_url_from_shortcut file_path f w).1 = Ok r
    ∧ self (extract_url_from_shortcut file_path f w).2 = self w
    ∧ disk (extract_url_from_shortcut file_path f w).2 = disk w
    ∧ (boxes (extract_url_from_shortcut file_path f w).2 = boxes w
       ∨ r = None
         ∧ ∃ e, boxes (extract_url_from_shortcut file_path f w).2
                = boxes w ++ [could_not_read file_path e]).
Proof.
  rewrite extract_url_from_shortcut_run.
  destruct (scan_lines _ _) as [r|e].
  - exists r. by repeat split; [..|left].
  - exists None. repeat split. right. split; [done|]. by exists e.
Qed.

(** A file none of whose lines starts with [URL=] gives [None]; this is
    silent when the file was read to its end, and reported in one message
    box when the read failed. *)
Theorem extract_url_no_url_line file_path text fail w :
  url_lines text = [] →
  extract_url_from_shortcut file_path (mkFile text fail) w
  = (Ok None,
     match fail with
     | None => w
     | Some e =>
         mkWorld (self w) (boxes w ++ [could_not_read file_path e]) (disk w)
     end).
Proof.
  intros Hnone. rewrite extract_url_from_shortcut_run. simpl.
  rewrite scan_lines_skips. fold (url_lines text). rewrite Hnone.
  by destruct fail.
Qed.

Lemma extract_url_no_url_line_witness :
  extract_url_from_shortcut "/links/x.url"
    (mkFile ("[InternetShortcut]" +:+ nl +:+ "url=http://a.com" +:+ nl
             +:+ " URL=http://b.com" +:+ nl +:+ "BASEURL=http://c.com") None)
    (unstarted None)
  = (Ok None, unstarted None).
Proof.
  apply (extract_url_no_url_line "/links/x.url" _ None (unstarted None)).
  reflexivity.
Defined.

(** The result depends on the file only through its first line starting
    with [URL=] and, when there is no such line, through the failure of
    the read: every other line is ignored. *)
Theorem extract_url_depends_on_first_url_line file_path t1 t2 fail1 fail2 w :
  head (url_lines t1) = head (url_lines t2) →
  (url_lines t1 = [] → fail1 = fail2) →
  extract_url_from_shortcut file_path (mkFile t1 fail1) w
  = extract_url_from_shortcut file_path (mkFile t2 fail2) w.
Proof.
  intros Hhead Hfail. rewrite !extract_url_from_shortcut_run. simpl.
  rewrite (scan_lines_skips (Py.readlines t1)), (scan_lines_skips (Py.readlines t2)).
  fold (url_lines t1) (url_lines t2).
  assert (∀ t line, line ∈ url_lines t → Py.startswith "URL=" line = true) as Hin.
  { intros t line [_ Hl]%list_elem_of_In%List.filter_In. done. }
  destruct (url_lines t1) as [|l1 r1] eqn:H1, (url_lines t2) as [|l2 r2] eqn:H2;
    simpl in Hhead; simplify_eq.
  - by rewrite Hfail.
  - rewrite (scan_lines_head r1 r2 l2 fail1 fail2); [done|].
    apply (Hin t2). rewrite H2. left.
Qed.

Lemma extract_url_depends_on_first_url_line_witness :
  extract_url_from_shortcut "/links/x.url" (mkFile double_shortcut None)
    (unstarted None)
  = extract_url_from_shortcut "/links/x.url"
      (mkFile ("URL=http://first.com" +:+ nl)
              (Some (OSError "Input/output error")))
      (unstarted None).
Proof.
  apply (extract_url_depends_on_first_url_line "/links/x.url").
  - reflexivity.
  - discriminate.
Defined.

(** A URL the method returns never contains [=], and returning a URL
    shows no message box. *)
Theorem extract_url_lacks_equals file_path f w url w' :
  extract_url_from_shortcut file_path f w = (Ok (Some url), w') →
  lacks "="%char url ∧ w' = w.
Proof.
  rewrite extract_url_from_shortcut_run.
  destruct (scan_lines _ _) as [r|e] eqn:Hscan; [|done].
  intros [= -> <-]. split; [|done]. by eapply scan_lines_some_lacks.
Qed.

Lemma extract_url_lacks_equals_witness :
  lacks "="%char "http://a.com/?x".
Proof.
  apply (extract_url_lacks_equals "/links/q.url" query_shortcut
           (unstarted None) "http://a.com/?x" (unstarted None)).
  reflexivity.
Defined.

(** ** [import_links] *)

Lemma split_lacks sep s : lacks sep s → Py.split sep s = [s].
Proof.
  induction s as [|c s IH]; intros Hs; simpl; [done|].
  destruct (Ascii.eqb_spec c sep) as [->|Hc]; [by destruct (Hs "" s)|].
  rewrite IH; [done|]. intros pre post ->. by apply (Hs (String c pre) post).
Qed.

Lemma split_after_sep sep post d : ∀ pre,
  ∃ h r, Py.split sep (pre +:+ String sep post) = h :: r
         ∧ r ≠ [] ∧ List.last r d = List.last (Py.split sep post) d.
Proof.
  induction pre as [|c pre (h & r & Hsplit & Hr & Hlast)].
  - destruct (split_nonempty sep post) as (h & r & Hpost).
    exists "", (h :: r). change ("" +:+ String sep post) with (String sep post).
    simpl. rewrite Ascii.eqb_refl, Hpost. done.
  - rewrite app_cons. simpl. rewrite Hsplit.
    destruct (Ascii.eqb c sep).
    + exists "", (h :: r). split; [done|]. split; [done|].
      rewrite <- Hlast. by destruct r.
    + by exists (String c h), r.
Qed.

(** The name shown for a folder [dir/name] is [name]. *)
Lemma basename_join dir name :
  lacks "/"%char name → basename (dir +:+ "/" +:+ name) = name.
Proof.
  intros Hname. unfold basename.
  change ("/" +:+ name) with (String "/"%char name).
  destruct (split_after_sep "/"%char name "" dir) as (h & r & -> & Hr & Hlast).
  rewrite split_lacks in Hlast by done.
  destruct r; [done|]. exact Hlast.
Qed.

Lemma imported_twice layout folder entries a :
  imported layout folder entries (imported layout folder entries a)
  = imported layout folder entries a.
Proof. by destruct layout. Qed.

Lemma extracted_wellformed d url :
  extracted d = Some url → url ≠ "" ∧ lacks "="%char url.
Proof.
  unfold extracted, read_of. destruct (is_shortcut d); [|done].
  destruct (scan_lines _ _) as [[u|]|e] eqn:Hscan; try done.
  destruct (truthy u) eqn:Hu; [|done]. intros [= ->]. split.
  - intros ->. done.
  - by eapply scan_lines_some_lacks.
Qed.

(** When [os.listdir] raises, [import_links] raises the same exception
    and has changed nothing: no field, no widget, no message box. *)
Theorem import_links_listdir_raises fs layout folder e w :
  truthy folder = true →
  fs folder = inl e →
  import_links fs layout folder w = (Raise e, w).
Proof. apply import_links_unlisted. Qed.

Lemma import_links_listdir_raises_witness :
  import_links (λ _, inl (OSError "[Errno 13] Permission denied: '/root'"))
    Slot1 "/root" (unstarted (Some sorted_config))
  = (Raise (OSError "[Errno 13] Permission denied: '/root'"),
     unstarted (Some sorted_config)).
Proof.
  apply (import_links_listdir_raises _ Slot1 "/root"); reflexivity.
Defined.

(** After a completed import the list widget of the slot shows exactly
    the new [links], whatever it showed before (a filtered view
    included), its label reads [Folder: ] and the last component of the
    folder path, and the other panel and the configuration file are as
    they were. *)
Theorem import_links_shows_all fs layout folder entries w :
  truthy folder = true →
  fs folder = inr entries →
  ∃ ls,
    holds (links_of layout (self (import_links fs layout folder w).2)) ls
    ∧ link_list (layout_of layout (self (import_links fs layout folder w).2)) = ls
    ∧ label (layout_of layout (self (import_links fs layout folder w).2))
      = "Folder: " +:+ basename folder
    ∧ (∀ dir name, folder = dir +:+ "/" +:+ name → lacks "/"%char name →
         label (layout_of layout (self (import_links fs layout folder w).2))
         = "Folder: " +:+ name)
    ∧ layout_of (other layout) (self (import_links fs layout folder w).2)
      = layout_of (other layout) (self w)
    ∧ disk (import_links fs layout folder w).2 = disk w.
Proof.
  intros Hf Hfs. rewrite (import_links_run _ _ _ entries) by done.
  exists (Py.sorted (Py.set (folder_urls entries))). cbn [snd self disk].
  split; [apply links_of_imported|].
  split; [by destruct layout|]. split; [by destruct layout|].
  split; [|by destruct layout].
  intros dir name -> Hname. rewrite <- (basename_join dir name Hname) at 2.
  by destruct layout.
Qed.

Lemma import_links_shows_all_witness :
  let w := (filter_links Slot1 "five"
              (import_links (one_folder five_files) Slot1 "/old"
                 (__init__ (unstarted None)).2).2).2 in
  link_list (layout1 (self w)) = ["http://five.com"]
  ∧ link_list (layout1 (self (import_links (one_folder scenario) Slot1
                                 "/home/me/links" w).2))
    = ["http://a.com"; "http://b.com"]
  ∧ label (layout1 (self (import_links (one_folder scenario) Slot1
                            "/home/me/links" w).2))
    = "Folder: links".
Proof.
  intros w.
  destruct (import_links_shows_all (one_folder scenario) Slot1
              "/home/me/links" scenario w eq_refl eq_refl)
    as (ls & Hls & Hshown & _ & Hlabel & _).
  split; [vm_compute; reflexivity|]. split.
  - etrans; [exact Hshown|].
    vm_compute in Hls. injection Hls as Hls.
    destruct ls as [|a [|b [|c ls]]]; try discriminate Hls.
    by injection Hls as <- <-.
  - apply (Hlabel "/home/me" "links"); [reflexivity|].
    intros pre post Heq.
    assert (Py.contains "/" "links" = true) as Hc; [|by vm_compute in Hc].
    apply contains_substring. by exists pre, post.
Defined.

(** The order in which [os.listdir] returns the entries does not
    matter: two listings with the same entries leave the same
    application object, and show the same message boxes up to order. *)
Theorem import_links_listing_order fs fs' layout folder entries entries' w :
  truthy folder = true →
  fs folder = inr entries →
  fs' folder = inr entries' →
  entries ≡ₚ entries' →
  self (import_links fs layout folder w).2
  = self (import_links fs' layout folder w).2
  ∧ boxes (import_links fs layout folder w).2
    ≡ₚ boxes (import_links fs' layout folder w).2.
Proof.
  intros Hf Hfs Hfs' Hperm.
  rewrite (import_links_run fs _ _ entries), (import_links_run fs' _ _ entries')
    by done.
  cbn [snd self boxes]. split.
  - assert (Py.set (folder_urls entries) = Py.set (folder_urls entries')) as Hset.
    { unfold Py.set, folder_urls. apply list_to_set_perm_L. by rewrite Hperm. }
    unfold imported. by rewrite Hset.
  - by rewrite Hperm.
Qed.

Lemma import_links_listing_order_witness :
  self (import_links (one_folder five_files) Slot1 "/links" (unstarted None)).2
  = self (import_links (one_folder (reverse five_files)) Slot1 "/links"
            (unstarted None)).2.
Proof.
  apply (import_links_listing_order (one_folder five_files)
           (one_folder (reverse five_files)) Slot1 "/links"
           five_files (reverse five_files) (unstarted None));
    [reflexivity..|].
  symmetry. apply reverse_Permutation.
Defined.

(** Importing the same folder again changes nothing in the application
    object, whether the import completes, is cancelled or raises. *)
Theorem import_links_again fs layout folder w :
  self (import_links fs layout folder (import_links fs layout folder w).2).2
  = self (import_links fs layout folder w).2.
Proof.
  destruct (import_links_cases fs layout folder w)
    as [Hrun|[[e Hrun]|(entries & Hf & Hfs & Hrun)]]; rewrite Hrun.
  - cbn [snd]. by rewrite Hrun.
  - cbn [snd]. by rewrite Hrun.
  - cbn [snd]. rewrite (import_links_run _ _ _ entries) by done.
    cbn [snd self]. apply imported_twice.
Qed.

(** Every link an import leaves in the slot is a non-empty string
    without [=]. *)
Theorem import_links_urls_wellformed fs layout folder entries w :
  truthy folder = true →
  fs folder = inr entries →
  ∃ ls,
    holds (links_of layout (self (import_links fs layout folder w).2)) ls
    ∧ ∀ url, url ∈ ls → url ≠ "" ∧ lacks "="%char url.
Proof.
  intros Hf Hfs. rewrite (import_links_run _ _ _ entries) by done.
  exists (Py.sorted (Py.set (folder_urls entries))). cbn [snd self].
  split; [apply links_of_imported|].
  intros url [d [_ Hd]]%elem_of_sorted_set%list_elem_of_omap.
  by apply (extracted_wellformed d).
Qed.

Lemma import_links_urls_wellformed_witness :
  ∃ ls,
    holds (links1 (self (import_links
                           (one_folder [mkDirent "q.url" true query_shortcut;
                                        mkDirent "e.url" true (shortcut "")])
                           Slot1 "/links" (unstarted None)).2)) ls
    ∧ ∀ url, url ∈ ls → url ≠ "" ∧ lacks "="%char url.
Proof.
  apply (import_links_urls_wellformed _ Slot1 "/links"
           [mkDirent "q.url" true query_shortcut;
            mkDirent "e.url" true (shortcut "")]); reflexivity.
Defined.

(** ** [filter_links] and [update_link_list] *)

Lemma str_app_assoc a b c : (a +:+ b) +:+ c = a +:+ (b +:+ c).
Proof. induction a as [|x a IH]; [done|]. rewrite !app_cons. by f_equal. Qed.

Lemma is_substring_trans a b c :
  is_substring a b → is_substring b c → is_substring a c.
Proof.
  intros (p1 & q1 & ->) (p2 & q2 & ->).
  exists (p2 +:+ p1), (q1 +:+ q2). by rewrite !str_app_assoc.
Qed.

Lemma filter_sublist_mono {A} (f g : A → bool) (l : list A) :
  (∀ x, f x = true → g x = true) →
  sublist (List.filter f l) (List.filter g l).
Proof.
  intros Hfg. induction l as [|x l IH]; simpl; [constructor|].
  destruct (f x) eqn:Hf.
  - rewrite (Hfg x Hf). by constructor.
  - destruct (g x); [by constructor | done].
Qed.

(** The method starts by emptying the list widget of its panel. *)
Lemma filter_links_unfold l search_text w :
  filter_links l search_text w =
    (items ← py_iter (links_of l (self w));
     filtered_links ← for_fold (keep_match (Py.lower search_text)) [] items;
     addItems l filtered_links) (cleared l w).
Proof. reflexivity. Qed.

Lemma filter_links_ignores_display l search_text w items :
  filter_links l search_text
    (mkWorld (with_layout l (mkPanel items (label (layout_of l (self w))))
                (self w))
             (boxes w) (disk w))
  = filter_links l search_text w.
Proof.
  rewrite !filter_links_unfold. unfold cleared. cbn [self boxes disk].
  rewrite layout_of_with_layout, with_layout_twice. cbn [label].
  by replace (links_of l (with_layout l _ (self w)))
    with (links_of l (self w)) by (by destruct l).
Qed.


(** Filtering does not build on the view it finds: the result of a
    search is the same whatever was searched before, so that repeating a
    search changes nothing. This holds for every state, and whether the
    method returns or raises. *)
Theorem filter_links_forgets_previous l s1 s2 w :
  filter_links l s2 (filter_links l s1 w).2 = filter_links l s2 w.
Proof.
  destruct (filter_links_frame l s1 w) as (r & items & ->). cbn [snd].
  apply filter_links_ignores_display.
Qed.

(** A search text that contains another one, whatever the case of the
    letters, shows a subsequence of what the other one shows. *)
Theorem filter_links_narrows l s1 s2 w ls :
  holds (links_of l (self w)) ls →
  is_substring (Py.lower s1) (Py.lower s2) →
  sublist (link_list (layout_of l (self (filter_links l s2 w).2)))
          (link_list (layout_of l (self (filter_links l s1 w).2))).
Proof.
  intros Hls Hsub. rewrite !(filter_links_run _ _ ls) by done.
  cbn [snd self]. rewrite !layout_of_with_layout. cbn [link_list].
  apply filter_sublist_mono. intros link Hlink.
  apply contains_substring. apply contains_substring in Hlink.
  by eapply is_substring_trans.
Qed.

Lemma filter_links_narrows_witness :
  let w := (import_links (one_folder five_files) Slot1 "/links"
              (__init__ (unstarted None)).2).2 in
  sublist (link_list (layout1 (self (filter_links Slot1 "F" w).2)))
          ["http://five.com"; "http://four.com"]
  ∧ sublist (link_list (layout1 (self (filter_links Slot1 "fi" w).2)))
            (link_list (layout1 (self (filter_links Slot1 "F" w).2))).
Proof.
  intros w. split; [vm_compute; reflexivity|].
  apply (filter_links_narrows Slot1 "F" "fi" w
           ["http://five.com"; "http://four.com"; "http://one.com";
            "http://two.com"]).
  - vm_compute. reflexivity.
  - by exists "", "i".
Defined.





(** ** [load_config], [save_config] and [closeEvent] *)

(** A configuration file that is valid JSON but not an object (a list,
    a string, a number, [null]) makes [load_config] raise an
    [AttributeError] at the first [config.get], with nothing assigned; a
    fresh instance started on it raises with empty lists and empty
    strings in its fields. *)
Theorem load_config_not_an_object a b doc :
  (∀ entries, doc ≠ PyDict entries) →
  load_config (mkWorld a b (Some (Json doc)))
  = (Raise (AttributeError
              ("'" +:+ type_name doc +:+ "' object has no attribute 'get'")),
     mkWorld a b (Some (Json doc)))
  ∧ ∃ e a',
      __init__ (mkWorld a b (Some (Json doc)))
      = (Raise e, mkWorld a' b (Some (Json doc)))
      ∧ links1 a' = PyList [] ∧ links2 a' = PyList []
      ∧ folder1 a' = PyStr "" ∧ folder2 a' = PyStr "".
Proof.
  intros Hdoc. split; [by apply load_config_not_object|].
  rewrite init_run, load_config_not_object by done.
  eexists _, _. split; [reflexivity|]. done.
Qed.

Lemma load_config_not_an_object_witness :
  load_config (unstarted (Some (Json (PyList [PyStr "http://a.com"]))))
  = (Raise (AttributeError "'list' object has no attribute 'get'"),
     unstarted (Some (Json (PyList [PyStr "http://a.com"])))).
Proof.
  apply (load_config_not_an_object (self (unstarted None)) []
           (PyList [PyStr "http://a.com"])).
  discriminate.
Defined.

(** [load_config] never touches the panels: it shows no message box,
    does not write the file and leaves both list widgets and both labels
    as they are. A fresh instance therefore shows two empty lists under
    the titles [Linklist 1] and [Linklist 2], whatever links and folders
    it has loaded. *)
Theorem load_config_leaves_panels w :
  (layout1 (self (load_config w).2) = layout1 (self w)
   ∧ layout2 (self (load_config w).2) = layout2 (self w)
   ∧ boxes (load_config w).2 = boxes w
   ∧ disk (load_config w).2 = disk w)
  ∧ layout1 (self (__init__ w).2) = mkPanel [] "Linklist 1"
  ∧ layout2 (self (__init__ w).2) = mkPanel [] "Linklist 2".
Proof.
  assert (∀ a b d,
    layout1 (self (load_config (mkWorld a b d)).2) = layout1 a
    ∧ layout2 (self (load_config (mkWorld a b d)).2) = layout2 a
    ∧ boxes (load_config (mkWorld a b d)).2 = b
    ∧ disk (load_config (mkWorld a b d)).2 = d) as Hload.
  { intros a b [[doc|e]|]; [|done..].
    destruct doc; try (by rewrite load_config_not_object).
    by rewrite load_config_object. }
  destruct w as [a b d]. split; [apply Hload|].
  rewrite init_run. split; apply Hload.
Qed.

(** Loading a JSON object and saving again rewrites the file with
    exactly the four keys [links1], [links2], [folder1], [folder2], in
    this order: a key that was missing gets its default and every other
    key of the object is dropped. Opening and closing the application
    without a file creates the file with empty lists and empty strings. *)
Theorem load_then_save_normalises a b :
  (∀ entries,
     disk (closeEvent (load_config (mkWorld a b (Some (Json (PyDict entries))))).2).2
     = Some (Json (PyDict
         [("links1", default (PyList []) (stored entries "links1"));
          ("links2", default (PyList []) (stored entries "links2"));
          ("folder1", default (PyStr "") (stored entries "folder1"));
          ("folder2", default (PyStr "") (stored entries "folder2"))])))
  ∧ disk (closeEvent (__init__ (mkWorld a b None)).2).2
    = Some (Json (PyDict [("links1", PyList []); ("links2", PyList []);
                          ("folder1", PyStr ""); ("folder2", PyStr "")])).
Proof.
  split.
  - intros entries. by rewrite load_config_object.
  - by rewrite init_run, load_config_absent.
Qed.

(** ** [open_all_links] *)

Lemma open_each_willing browser links :
  (∀ v, v ∈ links → browser v = None) →
  open_each browser links = (links, Ok tt).
Proof.
  induction links as [|v links IH]; intros Hall; simpl; [done|].
  rewrite (Hall v) by left. rewrite IH; [done|].
  intros v' Hv'. apply Hall. by right.
Qed.

Lemma open_each_stops browser pre bad rest e :
  (∀ v, v ∈ pre → browser v = None) →
  browser bad = Some e →
  open_each browser (pre ++ bad :: rest) = (pre ++ [bad], Raise e).
Proof.
  intros Hpre Hbad. induction pre as [|v pre IH]; simpl.
  - by rewrite Hbad.
  - rewrite (Hpre v) by left. rewrite IH; [done|].
    intros v' Hv'. apply Hpre. by right.
Qed.

(** [open_all_links] leaves the world as it is. It opens the [links]
    of the slot, each once and in their order, and not the items that
    the list widget shows: after a search has narrowed the view, the
    button still opens every link of the slot. *)
Theorem open_all_links_ignores_filter browser l search_text w ls :
  holds (links_of l (self w)) ls →
  (∀ url, url ∈ ls → browser (PyStr url) = None) →
  open_all_links browser l w = (PyStr <$> ls, (Ok tt, w))
  ∧ open_all_links browser l (filter_links l search_text w).2
    = (PyStr <$> ls, (Ok tt, (filter_links l search_text w).2)).
Proof.
  intros Hls Hopen.
  assert (open_each browser (PyStr <$> ls) = (PyStr <$> ls, Ok tt)) as Heach.
  { apply open_each_willing. intros v (url & -> & Hurl)%list_elem_of_fmap. auto. }
  split.
  - unfold open_all_links. rewrite Hls. cbn [py_iter]. unfold mret, M_ret.
    by rewrite Heach.
  - rewrite (filter_links_run _ _ ls) by done. cbn [snd].
    unfold open_all_links. cbn [self].
    replace (links_of l (with_layout l _ (self w)))
      with (links_of l (self w)) by (by destruct l).
    rewrite Hls. cbn [py_iter]. unfold mret, M_ret. by rewrite Heach.
Qed.

Lemma open_all_links_ignores_filter_witness :
  let w := (filter_links Slot1 "five"
              (import_links (one_folder five_files) Slot1 "/links"
                 (__init__ (unstarted None)).2).2).2 in
  link_list (layout1 (self w)) = ["http://five.com"]
  ∧ (open_all_links willing Slot1 w).1
    = [PyStr "http://five.com"; PyStr "http://four.com";
       PyStr "http://one.com"; PyStr "http://two.com"].
Proof.
  intros w. split; [vm_compute; reflexivity|].
  pose (w0 := (import_links (one_folder five_files) Slot1 "/links"
                 (__init__ (unstarted None)).2).2).
  destruct (open_all_links_ignores_filter willing Slot1 "five" w0
              ["http://five.com"; "http://four.com"; "http://one.com";
               "http://two.com"]) as [_ Hall].
  - vm_compute. reflexivity.
  - reflexivity.
  - change w with (filter_links Slot1 "five" w0).2. by rewrite Hall.
Defined.

(** There is no [try] around the calls of the browser: when one call
    raises, [open_all_links] raises with it and the links after that one
    are not opened. The world is as it was. *)
Theorem open_all_links_stops_at_failure browser l w pre bad rest e :
  links_of l (self w) = PyList (pre ++ bad :: rest) →
  (∀ v, v ∈ pre → browser v = None) →
  browser bad = Some e →
  open_all_links browser l w = (pre ++ [bad], (Raise e, w)).
Proof.
  intros Hlinks Hpre Hbad. unfold open_all_links. rewrite Hlinks.
  cbn [py_iter]. unfold mret, M_ret.
  by rewrite (open_each_stops browser pre bad rest e).
Qed.

Lemma open_all_links_stops_at_failure_witness :
  let w := (import_links (one_folder five_files) Slot1 "/links"
              (__init__ (unstarted None)).2).2 in
  open_all_links (failing_on "http://four.com") Slot1 w
  = ([PyStr "http://five.com"; PyStr "http://four.com"],
     (Raise (OSError "could not locate runnable browser"), w)).
Proof.
  intros w.
  apply (open_all_links_stops_at_failure (failing_on "http://four.com") Slot1 w
           [PyStr "http://five.com"] (PyStr "http://four.com")
           [PyStr "http://one.com"; PyStr "http://two.com"]).
  - vm_compute. reflexivity.
  - intros v ->%list_elem_of_singleton. reflexivity.
  - reflexivity.
Defined.

(** ** Runs of the application *)

Lemma slot_ok_frame l a a' :
  links_of l a' = links_of l a →
  folder_of l a' = folder_of l a →
  layout_of l a' = layout_of l a →
  slot_ok l a → slot_ok l a'.
Proof. unfold slot_ok. by intros -> -> ->. Qed.

Lemma slot_ok_imported layout folder entries a l :
  slot_ok l a → slot_ok l (imported layout folder entries a).
Proof.
  intros Hok.
  destruct l, layout;
    first [ by apply (slot_ok_frame _ a)
          | exists (Py.sorted (Py.set (folder_urls entries)));
            split; [done|];
            split; [apply NoDup_sorted|];
            split; [apply StronglySorted_sorted|];
            split; [done | by exists folder] ].
Qed.

Lemma slot_ok_filtered layout search_text w l :
  (∀ l, slot_ok l (self w)) →
  slot_ok l (self (filter_links layout search_text w).2)
  ∧ (filter_links layout search_text w).1 = Ok tt.
Proof.
  intros Hok. destruct (Hok layout) as (ls & Hls & Hnd & Hsort & _ & Hfolder).
  rewrite (filter_links_run _ _ ls) by done. split; [|done]. cbn [snd self].
  destruct l, layout;
    first [ by apply (slot_ok_frame _ (self w))
          | exists ls;
            split; [done|]; split; [done|]; split; [done|];
            split; [apply filter_sublist | done] ].
Qed.

Lemma slot_ok_handle ev w :
  (∀ l, slot_ok l (self w)) → ∀ l, slot_ok l (self (handle ev w).2).
Proof.
  intros Hok l. destruct ev as [layout fs picked|layout text|]; cbn [handle].
  - destruct (import_links_cases fs layout picked w)
      as [->|[[e ->]|(entries & _ & _ & ->)]]; [done..|].
    cbn [snd self]. by apply slot_ok_imported.
  - by apply slot_ok_filtered.
  - apply Hok.
Qed.

Lemma slot_ok_init a b d l :
  disk_inv d → disk_folders_ok d →
  slot_ok l (self (__init__ (mkWorld a b d)).2).
Proof.
  intros Hlinks Hfolders. rewrite init_run.
  assert (∀ a0 : LinkOpenerApp,
            links_of l a0 = PyList [] →
            (∃ f, folder_of l a0 = PyStr f) →
            link_list (layout_of l a0) = [] → slot_ok l a0) as Hempty.
  { intros a0 Hl Hf Hshown. exists []. rewrite Hshown.
    repeat split; [done|constructor..|done]. }
  destruct d as [[doc|e]|];
    [|rewrite load_config_not_json; apply Hempty; destruct l; by eauto
     |rewrite load_config_absent; apply Hempty; destruct l; by eauto].
  destruct doc;
    try (rewrite load_config_not_object by done;
         apply Hempty; destruct l; by eauto).
  rewrite load_config_object. cbn [snd self].
  destruct l; cbn [links_of folder_of layout_of links1 links2 folder1 folder2
                   layout1 layout2].
  - destruct (links_inv_loaded _ entries "links1" Hlinks eq_refl (or_introl eq_refl))
      as (ls & Hls & Hnd & Hsort).
    exists ls. split; [done|]. split; [done|]. split; [done|].
    split; [apply sublist_nil_l|].
    destruct (stored entries "folder1") as [v|] eqn:Hv; [|by eexists].
    by apply (Hfolders entries "folder1" v eq_refl (or_introl eq_refl)).
  - destruct (links_inv_loaded _ entries "links2" Hlinks eq_refl (or_intror eq_refl))
      as (ls & Hls & Hnd & Hsort).
    exists ls. split; [done|]. split; [done|]. split; [done|].
    split; [apply sublist_nil_l|].
    destruct (stored entries "folder2") as [v|] eqn:Hv; [|by eexists].
    by apply (Hfolders entries "folder2" v eq_refl (or_intror eq_refl)).
Qed.

(** An invariant of every run. When the configuration file is absent,
    unreadable as an object, or holds duplicate-free ascending lists of
    strings and strings for the folders, then in every world reached
    from a fresh instance by imports, searches and the saving at close,
    each slot holds a duplicate-free ascending list of strings, a string
    as its folder, and its list widget shows a subsequence of its list:
    every item that can be double-clicked is a link of the slot. *)
Theorem reachable_slots_ok w0 w :
  disk_inv (disk w0) →
  disk_folders_ok (disk w0) →
  reachable (__init__ w0).2 w →
  ∀ l, slot_ok l (self w).
Proof.
  intros Hlinks Hfolders Hreach.
  induction Hreach as [|w ev _ IH].
  - intros l. destruct w0 as [a b d]. by apply slot_ok_init.
  - by apply slot_ok_handle.
Qed.

Lemma reachable_slots_ok_witness :
  let w := (handle (TextChanged Slot1 "A")
              (handle (ImportClicked Slot1 (one_folder scenario) "/links")
                 (__init__ (unstarted (Some sorted_config))).2).2).2 in
  slot_ok Slot1 (self w) ∧ slot_ok Slot2 (self w).
Proof.
  intros w.
  assert (∀ l, slot_ok l (self w)) as Hok; [|by split].
  apply (reachable_slots_ok (unstarted (Some sorted_config)) w).
  - exact sorted_config_inv.
  - intros entries key v [= <-] [->| ->]; vm_compute; intros [= <-]; by eexists.
  - apply reach_step, reach_step, reach_start.
Defined.


